(** * A traced chatbot: the request pipeline of [demo-langfuse-tracing.py]

    The program is a FastAPI service with one interesting handler,
    [chat], which draws a trace id, opens a Langfuse trace, asks the
    OpenAI chat-completion endpoint for an answer, records a generation
    and a processing span, updates the trace, flushes the telemetry
    client and answers.

    The handler is embedded as a function in a state-and-exception monad.
    Everything outside the file (the environment, [uuid.uuid4], the
    clock, the completion endpoint, the telemetry backend) is an oracle
    collected in [Externals]; everything the handler does to the outside
    (console lines, completion requests, telemetry client calls) is
    appended to a log in [State]. *)

From Stdlib Require Import String Ascii List ZArith QArith Bool Lia DecimalString.
Import ListNotations.
Local Open Scope list_scope.
Local Open Scope string_scope.

(** ** Python values *)

Module Py.

(** A Python [str] is kept as its UTF-8 encoding; [len] and slicing
    count code points, that is, bytes that are not continuation bytes. *)
Definition is_continuation (c : ascii) : bool :=
  let n := nat_of_ascii c in (128 <=? n)%nat && (n <? 192)%nat.

Fixpoint len (s : string) : nat :=
  match s with
  | EmptyString => 0
  | String c r => if is_continuation c then len r else S (len r)
  end.

(** [prefix n s] is [s[:n]]. *)
Fixpoint prefix (n : nat) (s : string) : string :=
  match s with
  | EmptyString => EmptyString
  | String c r =>
      if is_continuation c then String c (prefix n r)
      else match n with
           | O => EmptyString
           | S n' => String c (prefix n' r)
           end
  end.

(** [str(z)] for an [int]. *)
Definition str_of_int (z : Z) : string :=
  NilZero.string_of_int (Z.to_int z).

(** [c * n] for a one-character string. *)
Fixpoint replicate (n : nat) (c : string) : string :=
  match n with
  | O => EmptyString
  | S n' => c ++ replicate n' c
  end.

Definition newline : string := String (ascii_of_nat 10) EmptyString.
Definition dquote : string := String (ascii_of_nat 34) EmptyString.
Definition backslash : string := String (ascii_of_nat 92) EmptyString.

(** The dynamically typed payloads handed to the SDKs.  A [dict] keeps
    insertion order; the float literals of the source are kept as the
    decimal fractions they are written as. *)
#[warnings="-register-all"]
Inductive value : Type :=
| None_
| Str (s : string)
| Int (z : Z)
| Float (q : Q)
| List_ (l : list value)
| Dict (d : list (string * value)).

Definition dict : Type := list (string * value).

(** [d.get(k)]: the first binding of [k]. *)
Fixpoint get (k : string) (d : dict) : option value :=
  match d with
  | [] => None
  | (k', v) :: d' => if String.eqb k k' then Some v else get k d'
  end.

Definition keys (d : dict) : list string := map fst d.

(** How a payload shows a possibly missing string. *)
Definition of_optional_str (o : option string) : value :=
  match o with
  | Some s => Str s
  | None => None_
  end.

Inductive exn : Type :=
| OpenAIError (msg : string)
| APIError (msg : string)
| IndexError
| AttributeError (attr : string)
| KeyError (key : string)
| ValidationError (fields : list string)
| SystemExit (code : Z).

(** [d[k]] either yields a value or raises [KeyError]. *)
Definition subscript (d : dict) (k : string) : value + exn :=
  match get k d with
  | Some v => inl v
  | None => inr (KeyError k)
  end.

End Py.

(** ** The completion endpoint, as the handler consumes it *)

Module OpenAI.

(** Keyword arguments of [chat.completions.create]. *)
Record CreateArgs : Type := {
  arg_model : string;
  arg_messages : list Py.dict;
  arg_temperature : Q;
  arg_max_tokens : Z
}.

Record CompletionUsage : Type := {
  prompt_tokens : Z;
  completion_tokens : Z;
  total_tokens : Z
}.

Record Choice : Type := { message_content : option string }.

(** The response object.  [choices] is indexed by the handler, and the
    SDK types [message.content] and [usage] as optional. *)
Record ChatCompletion : Type := {
  choices : list Choice;
  model : string;
  usage : option CompletionUsage
}.

Inductive ApiResult : Type :=
| Returns (c : ChatCompletion)
| Fails (msg : string).

End OpenAI.

(** ** The telemetry client, as the handler drives it *)

Module Langfuse.

(** One entry per call made on the client or on a handle it returned,
    with the keyword arguments as written at the call site.  A trace
    handle is its id; a span handle is the trace id and the position
    of the creating call in the log. *)
Inductive Call : Type :=
| Trace (id : string) (kwargs : Py.dict)
| TraceUpdate (trace_id : string) (kwargs : Py.dict)
| Generation (trace_id : string) (kwargs : Py.dict)
| Span (trace_id : string) (obs : nat) (kwargs : Py.dict)
| SpanEnd (trace_id : string) (obs : nat) (kwargs : Py.dict)
| Flush (delivered : bool).

Definition is_flush (c : Call) : bool :=
  match c with Flush _ => true | _ => false end.

Definition is_generation (c : Call) : bool :=
  match c with Generation _ _ => true | _ => false end.

Definition is_span (c : Call) : bool :=
  match c with Span _ _ _ => true | _ => false end.

Definition is_span_end (c : Call) : bool :=
  match c with SpanEnd _ _ _ => true | _ => false end.

Definition is_trace_update (c : Call) : bool :=
  match c with TraceUpdate _ _ => true | _ => false end.

(** The trace a record belongs to. *)
Definition owner (c : Call) : option string :=
  match c with
  | Trace id _ => Some id
  | TraceUpdate t _ | Generation t _ | Span t _ _ | SpanEnd t _ _ => Some t
  | Flush _ => None
  end.

Definition kwargs_of (c : Call) : Py.dict :=
  match c with
  | Trace _ k | TraceUpdate _ k | Generation _ k
  | Span _ _ k | SpanEnd _ _ k => k
  | Flush _ => []
  end.

Definition flushes (log : list Call) : nat :=
  length (filter is_flush log).

Definition created_trace_ids (log : list Call) : list string :=
  flat_map (fun c => match c with Trace id _ => [id] | _ => [] end) log.

End Langfuse.

(** ** The world around the handler *)

(** What the program reads from outside.  [environ] is the environment
  once the .env file is loaded; [openai_client_init k] is [None] when
  the SDK constructs a client from the key [k] and the message of the
  error it raises otherwise.  The other oracles are indexed by the
  number of earlier calls of the same kind in the process. *)
Record Externals : Type := {
environ : string -> option string;
openai_client_init : option string -> option string;
uuid4 : nat -> string;
now_isoformat : nat -> string;
completions_create : nat -> OpenAI.ApiResult;
sink_accepts : nat -> bool
}.

(** What the program has done to the outside so far. *)
Record State : Type := {
uuid_draws : nat;
clock_reads : nat;
api_requests : list OpenAI.CreateArgs;
lf_log : list Langfuse.Call;
stdout : list string;
listening : option (string * Z)
}.

Definition process_start : State :=
{| uuid_draws := 0; clock_reads := 0; api_requests := [];
   lf_log := []; stdout := []; listening := None |}.

(** Statements either return or raise; the state reached is kept in
  both cases. *)
Inductive outcome (A : Type) : Type :=
| Ok (a : A)
| Raise (e : Py.exn).
Arguments Ok {A} a.
Arguments Raise {A} e.

Definition M (A : Type) : Type := State -> outcome A * State.

Definition ret {A} (a : A) : M A := fun st => (Ok a, st).

Definition raise {A} (e : Py.exn) : M A := fun st => (Raise e, st).

Definition bind {A B} (m : M A) (k : A -> M B) : M B :=
fun st =>
  match m st with
  | (Ok a, st') => k a st'
  | (Raise e, st') => (Raise e, st')
  end.

Notation "x <- m ;; k" := (bind m (fun x => k))
(at level 61, m at next level, right associativity).
Notation "m ;; k" := (bind m (fun _ => k))
(at level 61, right associativity).

Definition lift {A} (r : A + Py.exn) : M A :=
match r with
| inl a => ret a
| inr e => raise e
end.

Definition print (line : string) : M unit :=
fun st =>
  (Ok tt, {| uuid_draws := uuid_draws st; clock_reads := clock_reads st;
             api_requests := api_requests st; lf_log := lf_log st;
             stdout := (stdout st ++ [line])%list; listening := listening st |}).

Definition lf_record (c : Langfuse.Call) : M unit :=
fun st =>
  (Ok tt, {| uuid_draws := uuid_draws st; clock_reads := clock_reads st;
             api_requests := api_requests st; lf_log := (lf_log st ++ [c])%list;
             stdout := stdout st; listening := listening st |}).

Section Program.

Variable E : Externals.

(** [os.getenv(k)] and [os.getenv(k, default)]. *)
Definition getenv (k : string) : option string := environ E k.

Definition getenv_default (k default : string) : string :=
  match environ E k with
  | Some v => v
  | None => default
  end.

(** [str(uuid.uuid4())] *)
Definition uuid4_str : M string :=
  fun st =>
    (Ok (uuid4 E (uuid_draws st)),
     {| uuid_draws := S (uuid_draws st); clock_reads := clock_reads st;
        api_requests := api_requests st; lf_log := lf_log st;
        stdout := stdout st; listening := listening st |}).

(** [datetime.now().isoformat()] *)
Definition datetime_now_isoformat : M string :=
  fun st =>
    (Ok (now_isoformat E (clock_reads st)),
     {| uuid_draws := uuid_draws st; clock_reads := S (clock_reads st);
        api_requests := api_requests st; lf_log := lf_log st;
        stdout := stdout st; listening := listening st |}).

(** [openai_client.chat.completions.create(...)]: the request is
    logged, then the endpoint answers or the call raises. *)
Definition chat_completions_create (args : OpenAI.CreateArgs)
  : M OpenAI.ChatCompletion :=
  fun st =>
    let st' :=
      {| uuid_draws := uuid_draws st; clock_reads := clock_reads st;
         api_requests := (api_requests st ++ [args])%list; lf_log := lf_log st;
         stdout := stdout st; listening := listening st |} in
    match completions_create E (length (api_requests st)) with
    | OpenAI.Returns c => (Ok c, st')
    | OpenAI.Fails msg => (Raise (Py.APIError msg), st')
    end.

(** [langfuse.trace(id=..., ...)] returns the handle of the trace. *)
Definition langfuse_trace (id : string) (kwargs : Py.dict) : M string :=
  lf_record (Langfuse.Trace id kwargs) ;; ret id.

(** [trace.generation(...)] *)
Definition trace_generation (trace : string) (kwargs : Py.dict) : M unit :=
  lf_record (Langfuse.Generation trace kwargs).

(** [trace.span(...)] returns the handle of the span. *)
Definition trace_span (trace : string) (kwargs : Py.dict)
  : M (string * nat) :=
  fun st =>
    let obs := length (lf_log st) in
    match lf_record (Langfuse.Span trace obs kwargs) st with
    | (_, st') => (Ok (trace, obs), st')
    end.

(** [span.end(...)] *)
Definition span_end (span : string * nat) (kwargs : Py.dict) : M unit :=
  lf_record (Langfuse.SpanEnd (fst span) (snd span) kwargs).

(** [trace.update(...)] *)
Definition trace_update (trace : string) (kwargs : Py.dict) : M unit :=
  lf_record (Langfuse.TraceUpdate trace kwargs).

(** [langfuse.flush()] blocks until the backend has accepted or
    refused the buffered batch.  It returns nothing either way; what
    happened to the batch is kept in the log only. *)
Definition langfuse_flush : M unit :=
  fun st =>
    lf_record
      (Langfuse.Flush (sink_accepts E (Langfuse.flushes (lf_log st)))) st.

End Program.

(** ** The program *)

(** What the user sends us; [user_id] defaults to ["anonymous"]. *)
Record ChatRequest : Type := {
message : string;
user_id : string
}.

Definition ChatRequest_init (message : string) (user_id : option string)
: ChatRequest :=
{| message := message;
   user_id := match user_id with Some u => u | None => "anonymous" end |}.

(** What we send back to the user. *)
Record ChatResponse : Type := {
response : string;
trace_id : string;
trace_url : string;
tokens_used : Z;
model : string
}.

(** Construction of the response model validates the field types: of the
  values that reach it here ([str], [int], [None]) a [str] field takes
  a [str] only and an [int] field an [int] only. *)
Definition ChatResponse_init (response : Py.value) (trace_id trace_url : string)
  (tokens_used model : Py.value) : ChatResponse + Py.exn :=
match response, tokens_used, model with
| Py.Str r, Py.Int t, Py.Str m =>
    inl {| response := r; trace_id := trace_id; trace_url := trace_url;
           tokens_used := t; model := m |}
| _, _, _ =>
    inr (Py.ValidationError
           ((match response with Py.Str _ => [] | _ => ["response"] end)
            ++ (match tokens_used with Py.Int _ => [] | _ => ["tokens_used"] end)
            ++ (match model with Py.Str _ => [] | _ => ["model"] end))%list)
end.

Fixpoint for_each {A} (l : list A) (body : A -> M unit) : M unit :=
match l with
| [] => ret tt
| x :: l' => body x ;; for_each l' body
end.

Section Handlers.

Variable E : Externals.

Definition system_prompt : string :=
  "You are a helpful assistant that explains things simply.".

Definition langfuse_host_default : string := "http://localhost:3000".

(** Sends the question to OpenAI and gets an answer; the call is
    recorded as a generation once it has returned. *)
Definition call_openai (message : string) (trace : string) : M Py.dict :=
  print ("  🤖 Asking GPT-3.5: " ++ Py.prefix 50 message ++ "...") ;;
  response <- chat_completions_create E
    {| OpenAI.arg_model := "gpt-3.5-turbo";
       OpenAI.arg_messages :=
         [ [("role", Py.Str "system"); ("content", Py.Str system_prompt)];
           [("role", Py.Str "user"); ("content", Py.Str message)] ];
       OpenAI.arg_temperature := (7 # 10)%Q;
       OpenAI.arg_max_tokens := 500%Z |} ;;
  (* response.choices[0].message.content *)
  choice <- match OpenAI.choices response with
            | c :: _ => ret c
            | [] => raise Py.IndexError
            end ;;
  (* response.usage.total_tokens *)
  usage <- match OpenAI.usage response with
           | Some u => ret u
           | None => raise (Py.AttributeError "total_tokens")
           end ;;
  let text := Py.of_optional_str (OpenAI.message_content choice) in
  let tokens := OpenAI.total_tokens usage in
  let result :=
    [("text", text);
     ("tokens", Py.Int tokens);
     ("model", Py.Str (OpenAI.model response))] in
  trace_generation trace
    [("name", Py.Str "openai_api_call");
     ("model", Py.Str (OpenAI.model response));
     ("input", Py.Str message);
     ("output", text);
     ("usage", Py.Dict
        [("promptTokens", Py.Int (OpenAI.prompt_tokens usage));
         ("completionTokens", Py.Int (OpenAI.completion_tokens usage));
         ("totalTokens", Py.Int (OpenAI.total_tokens usage))]);
     ("metadata", Py.Dict
        [("temperature", Py.Float (7 # 10)%Q);
         ("max_tokens", Py.Int 500)])] ;;
  print ("  ✓ Got answer (" ++ Py.str_of_int tokens ++ " tokens)") ;;
  ret result.

(** Processes OpenAI's response before sending it to the user: a span
    is created around a step that copies the three fields. *)
Definition process_response (llm_response : Py.dict) (trace : string)
  : M Py.dict :=
  span <- trace_span trace
    [("name", Py.Str "response_processing");
     ("input", Py.Dict llm_response);
     ("metadata", Py.Dict [("step", Py.Str "validation")])] ;;
  print "  🔍 Processing response..." ;;
  text <- lift (Py.subscript llm_response "text") ;;
  tokens <- lift (Py.subscript llm_response "tokens") ;;
  model <- lift (Py.subscript llm_response "model") ;;
  let processed := [("text", text); ("tokens", tokens); ("model", model)] in
  span_end span
    [("output", Py.Dict processed);
     ("metadata", Py.Dict [("status", Py.Str "passed")])] ;;
  print "  ✓ Processing complete" ;;
  ret processed.

(** The main function that handles a chat request. *)
Definition chat (request : ChatRequest) : M ChatResponse :=
  trace_id <- uuid4_str E ;;
  timestamp <- datetime_now_isoformat E ;;
  trace <- langfuse_trace trace_id
    [("name", Py.Str "chat_conversation");
     ("user_id", Py.Str (user_id request));
     ("input", Py.Dict [("message", Py.Str (message request))]);
     ("metadata", Py.Dict
        [("timestamp", Py.Str timestamp);
         ("message_length", Py.Int (Z.of_nat (Py.len (message request))))]);
     ("tags", Py.List_ [Py.Str "chatbot"; Py.Str "gpt-3.5"])] ;;
  print ("📝 Started tracking conversation: " ++ trace_id) ;;
  llm_response <- call_openai (message request) trace ;;
  final_response <- process_response llm_response trace ;;
  out_text <- lift (Py.subscript final_response "text") ;;
  out_tokens <- lift (Py.subscript final_response "tokens") ;;
  trace_update trace
    [("output", Py.Dict [("response", out_text); ("tokens", out_tokens)])] ;;
  langfuse_flush E ;;
  print ("✅ Conversation completed: " ++ trace_id) ;;
  let trace_url :=
    getenv_default E "LANGFUSE_HOST" langfuse_host_default
    ++ "/trace/" ++ trace_id in
  r_text <- lift (Py.subscript final_response "text") ;;
  r_tokens <- lift (Py.subscript final_response "tokens") ;;
  r_model <- lift (Py.subscript final_response "model") ;;
  lift (ChatResponse_init r_text trace_id trace_url r_tokens r_model).

(** Simple endpoint to check if the service is alive. *)
Definition health : Py.dict :=
  [("status", Py.Str "healthy"); ("message", Py.Str "Chatbot is running!")].

(** Root endpoint that shows usage instructions. *)
Definition root : Py.dict :=
  [("message", Py.Str "Welcome to the Traced Chatbot!");
   ("usage", Py.Dict
      [("endpoint", Py.Str "POST /chat");
       ("example", Py.Dict
          [("message", Py.Str "What is observability?");
           ("user_id", Py.Str "demo_user")])]);
   ("view_traces", Py.Str
      (getenv_default E "LANGFUSE_HOST" langfuse_host_default ++ "/traces"))].

(** *** The route, as the framework serves it

    The handler raises no [HTTPException], so whatever it raises is
    answered with status 500; what it returns is the body of a 200. *)
Inductive HttpResponse : Type :=
| Http200 (body : ChatResponse)
| Http500.

Definition post_chat (request : ChatRequest) (st : State)
  : HttpResponse * State :=
  match chat request st with
  | (Ok body, st') => (Http200 body, st')
  | (Raise _, st') => (Http500, st')
  end.

(** The requests of a process lifetime, served one after the other. *)
Fixpoint serve (requests : list ChatRequest) (st : State)
  : list HttpResponse * State :=
  match requests with
  | [] => ([], st)
  | r :: rest =>
      let (a, st') := post_chat r st in
      let (answers, st'') := serve rest st' in
      (a :: answers, st'')
  end.

(** *** Start of the process *)

(** [OpenAI(api_key=...)]: the client is constructed, or the
    constructor raises. *)
Definition OpenAI_init (api_key : option string) : M unit :=
  match openai_client_init E api_key with
  | None => ret tt
  | Some msg => raise (Py.OpenAIError msg)
  end.

(** The module body up to the route definitions: the environment is
    loaded, then the two clients are constructed from it. *)
Definition module_init : M unit :=
  print "✓ Environment variables loaded from .env file" ;;
  OpenAI_init (getenv E "OPENAI_API_KEY") ;;
  print "✓ Connected to OpenAI" ;;
  (* Langfuse(public_key=..., secret_key=..., host=...): the client whose
     calls are kept in [lf_log] *)
  print "✓ Connected to Langfuse".

Definition required_keys : list (string * option string) :=
  [("OPENAI_API_KEY", getenv E "OPENAI_API_KEY");
   ("LANGFUSE_PUBLIC_KEY", getenv E "LANGFUSE_PUBLIC_KEY");
   ("LANGFUSE_SECRET_KEY", getenv E "LANGFUSE_SECRET_KEY")].

(** [not value] for the result of [os.getenv]. *)
Definition not_ (value : option string) : bool :=
  match value with
  | None => true
  | Some EmptyString => true
  | Some (String _ _) => false
  end.

Definition missing : list string :=
  map fst (filter (fun kv => not_ (snd kv)) required_keys).

(** [uvicorn.run(app, host=..., port=...)] binds the listener. *)
Definition uvicorn_run (host : string) (port : Z) : M unit :=
  fun st =>
    (Ok tt, {| uuid_draws := uuid_draws st; clock_reads := clock_reads st;
               api_requests := api_requests st; lf_log := lf_log st;
               stdout := stdout st; listening := Some (host, port) |}).

Definition banner : string := Py.replicate 60 "=".

(** The [__main__] block. *)
Definition main : M unit :=
  print (Py.newline ++ banner) ;;
  print "🚀 STARTING TRACED CHATBOT" ;;
  print banner ;;
  match missing with
  | _ :: _ =>
      print (Py.newline ++ "❌ Missing required environment variables:") ;;
      for_each missing (fun key => print ("   - " ++ key)) ;;
      print (Py.newline ++ "Set them with:") ;;
      print "  export OPENAI_API_KEY='sk-your-key'" ;;
      print "  export LANGFUSE_PUBLIC_KEY='pk-lf-your-key'" ;;
      print "  export LANGFUSE_SECRET_KEY='sk-lf-your-key'" ;;
      raise (Py.SystemExit 1)
  | [] => ret tt
  end ;;
  print (Py.newline ++ "✅ All environment variables set!") ;;
  print (Py.newline ++ "📊 View traces at: "
         ++ getenv_default E "LANGFUSE_HOST" langfuse_host_default
         ++ "/traces") ;;
  print (Py.newline ++ "🌐 Starting server on http://localhost:8000") ;;
  print (Py.newline ++ "📝 Test with:") ;;
  print ("   curl -X POST http://localhost:8000/chat " ++ Py.backslash) ;;
  print ("     -H " ++ Py.dquote ++ "Content-Type: application/json"
         ++ Py.dquote ++ " " ++ Py.backslash) ;;
  print ("     -d '{" ++ Py.dquote ++ "message" ++ Py.dquote ++ ":"
         ++ Py.dquote ++ "What is AI?" ++ Py.dquote ++ ","
         ++ Py.dquote ++ "user_id" ++ Py.dquote ++ ":"
         ++ Py.dquote ++ "test" ++ Py.dquote ++ "}'") ;;
  print (Py.newline ++ banner ++ Py.newline) ;;
  uvicorn_run "0.0.0.0" 8000.

(** Running the file as a script. *)
Definition script : M unit := module_init ;; main.

End Handlers.

(** * Runs of the handler *)

(** ** What one request does *)

(** The id drawn for a request served from state [st] and the records
    the handler writes under it, as they are read off the call sites. *)
Definition drawn_id (E : Externals) (st : State) : string :=
  uuid4 E (uuid_draws st).

Definition sent_request (request : ChatRequest) : OpenAI.CreateArgs :=
  {| OpenAI.arg_model := "gpt-3.5-turbo";
     OpenAI.arg_messages :=
       [ [("role", Py.Str "system");
          ("content",
           Py.Str "You are a helpful assistant that explains things simply.")];
         [("role", Py.Str "user"); ("content", Py.Str (message request))] ];
     OpenAI.arg_temperature := (7 # 10)%Q;
     OpenAI.arg_max_tokens := 500%Z |}.

Definition trace_record (E : Externals) (request : ChatRequest) (st : State)
  : Langfuse.Call :=
  Langfuse.Trace (drawn_id E st)
    [("name", Py.Str "chat_conversation");
     ("user_id", Py.Str (user_id request));
     ("input", Py.Dict [("message", Py.Str (message request))]);
     ("metadata", Py.Dict
        [("timestamp", Py.Str (now_isoformat E (clock_reads st)));
         ("message_length", Py.Int (Z.of_nat (Py.len (message request))))]);
     ("tags", Py.List_ [Py.Str "chatbot"; Py.Str "gpt-3.5"])].

Definition generation_metadata : Py.dict :=
  [("temperature", Py.Float (7 # 10)%Q); ("max_tokens", Py.Int 500)].

Definition reported_usage (u : OpenAI.CompletionUsage) : Py.dict :=
  [("promptTokens", Py.Int (OpenAI.prompt_tokens u));
   ("completionTokens", Py.Int (OpenAI.completion_tokens u));
   ("totalTokens", Py.Int (OpenAI.total_tokens u))].

Definition generation_record (E : Externals) (request : ChatRequest)
    (st : State) (text : Py.value) (mdl : string)
    (u : OpenAI.CompletionUsage) : Langfuse.Call :=
  Langfuse.Generation (drawn_id E st)
    [("name", Py.Str "openai_api_call");
     ("model", Py.Str mdl);
     ("input", Py.Str (message request));
     ("output", text);
     ("usage", Py.Dict (reported_usage u));
     ("metadata", Py.Dict generation_metadata)].

Definition answer (text : Py.value) (mdl : string)
    (u : OpenAI.CompletionUsage) : Py.dict :=
  [("text", text);
   ("tokens", Py.Int (OpenAI.total_tokens u));
   ("model", Py.Str mdl)].

Definition span_id (st : State) : nat := (length (lf_log st) + 2)%nat.

Definition span_record (E : Externals) (st : State) (input : Py.dict)
  : Langfuse.Call :=
  Langfuse.Span (drawn_id E st) (span_id st)
    [("name", Py.Str "response_processing");
     ("input", Py.Dict input);
     ("metadata", Py.Dict [("step", Py.Str "validation")])].

Definition span_end_record (E : Externals) (st : State) (output : Py.dict)
  : Langfuse.Call :=
  Langfuse.SpanEnd (drawn_id E st) (span_id st)
    [("output", Py.Dict output);
     ("metadata", Py.Dict [("status", Py.Str "passed")])].

Definition update_record (E : Externals) (st : State) (text : Py.value)
    (u : OpenAI.CompletionUsage) : Langfuse.Call :=
  Langfuse.TraceUpdate (drawn_id E st)
    [("output", Py.Dict
        [("response", text); ("tokens", Py.Int (OpenAI.total_tokens u))])].

Definition flush_record (E : Externals) (st : State) : Langfuse.Call :=
  Langfuse.Flush (sink_accepts E (Langfuse.flushes (lf_log st))).

(** The records of a request whose completion came back whole. *)
Definition full_records (E : Externals) (request : ChatRequest) (st : State)
    (text : Py.value) (mdl : string) (u : OpenAI.CompletionUsage)
  : list Langfuse.Call :=
  [ trace_record E request st;
    generation_record E request st text mdl u;
    span_record E st (answer text mdl u);
    span_end_record E st (answer text mdl u);
    update_record E st text u;
    flush_record E st ].

Definition started_lines (E : Externals) (request : ChatRequest) (st : State)
  : list string :=
  [ "📝 Started tracking conversation: " ++ drawn_id E st;
    "  🤖 Asking GPT-3.5: " ++ Py.prefix 50 (message request) ++ "..." ].

Definition answered_lines (E : Externals) (request : ChatRequest) (st : State)
    (u : OpenAI.CompletionUsage) : list string :=
  List.app (started_lines E request st)
    [ "  ✓ Got answer (" ++ Py.str_of_int (OpenAI.total_tokens u) ++ " tokens)";
      "  🔍 Processing response...";
      "  ✓ Processing complete";
      "✅ Conversation completed: " ++ drawn_id E st ].

Definition state_after (request : ChatRequest) (st : State)
    (records : list Langfuse.Call) (lines : list string) : State :=
  {| uuid_draws := S (uuid_draws st);
     clock_reads := S (clock_reads st);
     api_requests := (api_requests st ++ [sent_request request])%list;
     lf_log := (lf_log st ++ records)%list;
     stdout := (stdout st ++ lines)%list;
     listening := listening st |}.

Definition derived_url (E : Externals) (st : State) : string :=
  getenv_default E "LANGFUSE_HOST" "http://localhost:3000"
  ++ "/trace/" ++ drawn_id E st.

(** What the endpoint does with the request sent from state [st]. *)
Definition this_call (E : Externals) (st : State) : OpenAI.ApiResult :=
  completions_create E (length (api_requests st)).

(** The three things the handler reads from a completion, when they are
    all there: the first choice's text, the model and the usage. *)
Definition whole (r : OpenAI.ApiResult)
  : option (string * string * OpenAI.CompletionUsage) :=
  match r with
  | OpenAI.Returns c =>
      match OpenAI.choices c, OpenAI.usage c with
      | ch :: _, Some u =>
          match OpenAI.message_content ch with
          | Some text => Some (text, OpenAI.model c, u)
          | None => None
          end
      | _, _ => None
      end
  | OpenAI.Fails _ => None
  end.


(** ** Reading the logs *)

(** The records a request added to the telemetry log. *)
Definition new_records (st st' : State) : list Langfuse.Call :=
  skipn (length (lf_log st)) (lf_log st').

Definition is_observation (c : Langfuse.Call) : bool :=
  Langfuse.is_generation c || Langfuse.is_span c.

Definition owned_by (tid : string) (c : Langfuse.Call) : bool :=
  match Langfuse.owner c with
  | Some t => String.eqb t tid
  | None => false
  end.

(** The generations and spans created under trace [tid], in creation
    order. *)
Definition observations_under (tid : string) (log : list Langfuse.Call)
  : list Langfuse.Call :=
  filter (fun c => is_observation c && owned_by tid c) log.

Definition is_trace_level (c : Langfuse.Call) : bool :=
  match c with
  | Langfuse.Trace _ _ | Langfuse.TraceUpdate _ _ => true
  | _ => false
  end.

Definition has_kwarg (k : string) (c : Langfuse.Call) : bool :=
  match Py.get k (Langfuse.kwargs_of c) with
  | Some _ => true
  | None => false
  end.

(** A record with the fate of its batch forgotten. *)
Definition erase_delivery (c : Langfuse.Call) : Langfuse.Call :=
  match c with
  | Langfuse.Flush _ => Langfuse.Flush true
  | _ => c
  end.

(** Two states that differ at most in what the backend did with the
    flushed batches. *)
Definition same_but_delivery (st1 st2 : State) : Prop :=
  uuid_draws st1 = uuid_draws st2 /\
  clock_reads st1 = clock_reads st2 /\
  api_requests st1 = api_requests st2 /\
  map erase_delivery (lf_log st1) = map erase_delivery (lf_log st2) /\
  stdout st1 = stdout st2 /\
  listening st1 = listening st2.

(** The same outside world with another telemetry backend. *)
Definition with_sink (E : Externals) (accepts : nat -> bool) : Externals :=
  {| environ := environ E;
     openai_client_init := openai_client_init E;
     uuid4 := uuid4 E;
     now_isoformat := now_isoformat E;
     completions_create := completions_create E;
     sink_accepts := accepts |}.

(** A state with more lines on the console. *)
Definition printed (st : State) (lines : list string) : State :=
  {| uuid_draws := uuid_draws st;
     clock_reads := clock_reads st;
     api_requests := api_requests st;
     lf_log := lf_log st;
     stdout := (stdout st ++ lines)%list;
     listening := listening st |}.

(** What the script has printed when it gives up on missing keys. *)
Definition refusal_lines (absent : list string) : list string :=
  List.app
    [ "✓ Environment variables loaded from .env file";
      "✓ Connected to OpenAI";
      "✓ Connected to Langfuse";
      Py.newline ++ Py.replicate 60 "=";
      "🚀 STARTING TRACED CHATBOT";
      Py.replicate 60 "=";
      Py.newline ++ "❌ Missing required environment variables:" ]
    (List.app
       (map (fun key => "   - " ++ key) absent)
       [ Py.newline ++ "Set them with:";
         "  export OPENAI_API_KEY='sk-your-key'";
         "  export LANGFUSE_PUBLIC_KEY='pk-lf-your-key'";
         "  export LANGFUSE_SECRET_KEY='sk-lf-your-key'" ]).

(** The names checked at start-up. *)
Definition required_names : list string :=
  ["OPENAI_API_KEY"; "LANGFUSE_PUBLIC_KEY"; "LANGFUSE_SECRET_KEY"].

(** ** Sample worlds *)

Definition sample_completion (prompt completion total : Z)
  : OpenAI.ChatCompletion :=
  {| OpenAI.choices := [ {| OpenAI.message_content := Some "AI is..." |} ];
     OpenAI.model := "gpt-3.5-turbo-0125";
     OpenAI.usage :=
       Some {| OpenAI.prompt_tokens := prompt;
               OpenAI.completion_tokens := completion;
               OpenAI.total_tokens := total |} |}.

Definition sample_environ (k : string) : option string :=
  if String.eqb k "OPENAI_API_KEY" then Some "sk-test"
  else if String.eqb k "LANGFUSE_PUBLIC_KEY" then Some "pk-lf-test"
  else if String.eqb k "LANGFUSE_SECRET_KEY" then Some "sk-lf-test"
  else None.

(** A client constructor that asks for a key and takes any. *)
Definition sample_client_init (api_key : option string) : option string :=
  match api_key with
  | Some _ => None
  | None => Some "The api_key client option must be set"
  end.

Definition sample_uuid4 (n : nat) : string :=
  "6f1c2a9e-0000-4000-8000-00000000000" ++ Py.str_of_int (Z.of_nat n).

(** A world in which every completion answers ["AI is..."] with usage
    20 + 15 = 35 and the backend accepts every batch. *)
Definition sample_world : Externals :=
  {| environ := sample_environ;
     openai_client_init := sample_client_init;
     uuid4 := sample_uuid4;
     now_isoformat := fun _ => "2024-05-01T12:00:00.000000";
     completions_create := fun _ => OpenAI.Returns (sample_completion 20 15 35);
     sink_accepts := fun _ => true |}.

(** The same world with a provider whose reported total is not the sum
    of the two parts. *)
Definition inconsistent_usage_world : Externals :=
  {| environ := sample_environ;
     openai_client_init := sample_client_init;
     uuid4 := sample_uuid4;
     now_isoformat := fun _ => "2024-05-01T12:00:00.000000";
     completions_create := fun _ => OpenAI.Returns (sample_completion 20 15 99);
     sink_accepts := fun _ => true |}.


(** A world in which one telemetry credential is not set. *)
Definition missing_secret_world : Externals :=
  {| environ := fun k =>
       if String.eqb k "LANGFUSE_SECRET_KEY" then None else sample_environ k;
     openai_client_init := sample_client_init;
     uuid4 := sample_uuid4;
     now_isoformat := fun _ => "2024-05-01T12:00:00.000000";
     completions_create := fun _ => OpenAI.Returns (sample_completion 20 15 35);
     sink_accepts := fun _ => true |}.

(** A world in which the inference credential and one telemetry
    credential are not set. *)
Definition missing_openai_key_world : Externals :=
  {| environ := fun k =>
       if String.eqb k "OPENAI_API_KEY" then None
       else if String.eqb k "LANGFUSE_SECRET_KEY" then None
       else sample_environ k;
     openai_client_init := sample_client_init;
     uuid4 := sample_uuid4;
     now_isoformat := fun _ => "2024-05-01T12:00:00.000000";
     completions_create := fun _ => OpenAI.Returns (sample_completion 20 15 35);
     sink_accepts := fun _ => true |}.

Definition sample_request : ChatRequest :=
  ChatRequest_init "What is AI?" (Some "demo").

(** ** More readings of the logs *)

(** The handles of the plain spans begun with [trace.span], and of
    those ended with [span.end], in order. *)
Definition opened_spans (log : list Langfuse.Call) : list (string * nat) :=
  flat_map (fun c => match c with
                     | Langfuse.Span t obs _ => [(t, obs)]
                     | _ => []
                     end) log.

Definition ended_spans (log : list Langfuse.Call) : list (string * nat) :=
  flat_map (fun c => match c with
                     | Langfuse.SpanEnd t obs _ => [(t, obs)]
                     | _ => []
                     end) log.

(** A string that does not begin in the middle of a character. *)
Definition starts_a_character (s : string) : Prop :=
  match s with
  | EmptyString => True
  | String c _ => Py.is_continuation c = false
  end.

(** The names the [__main__] block reports: unset or empty, in the order
    of the dict literal. *)
Definition unset_or_empty (E : Externals) : list string :=
  filter (fun k => not_ (environ E k)) required_names.

(** What the script has printed when it starts the server. *)
Definition serving_lines (E : Externals) : list string :=
  [ "✓ Environment variables loaded from .env file";
    "✓ Connected to OpenAI";
    "✓ Connected to Langfuse";
    Py.newline ++ Py.replicate 60 "=";
    "🚀 STARTING TRACED CHATBOT";
    Py.replicate 60 "=";
    Py.newline ++ "✅ All environment variables set!";
    Py.newline ++ "📊 View traces at: "
      ++ getenv_default E "LANGFUSE_HOST" "http://localhost:3000"
      ++ "/traces";
    Py.newline ++ "🌐 Starting server on http://localhost:8000";
    Py.newline ++ "📝 Test with:";
    "   curl -X POST http://localhost:8000/chat " ++ Py.backslash;
    "     -H " ++ Py.dquote ++ "Content-Type: application/json"
      ++ Py.dquote ++ " " ++ Py.backslash;
    "     -d '{" ++ Py.dquote ++ "message" ++ Py.dquote ++ ":"
      ++ Py.dquote ++ "What is AI?" ++ Py.dquote ++ ","
      ++ Py.dquote ++ "user_id" ++ Py.dquote ++ ":"
      ++ Py.dquote ++ "test" ++ Py.dquote ++ "}'";
    Py.newline ++ Py.replicate 60 "=" ++ Py.newline ].

(** ** More sample worlds *)

(** A provider that answers with the given completion every time. *)
Definition world_answering (c : OpenAI.ChatCompletion) : Externals :=
  {| environ := sample_environ;
     openai_client_init := sample_client_init;
     uuid4 := sample_uuid4;
     now_isoformat := fun _ => "2024-05-01T12:00:00.000000";
     completions_create := fun _ => OpenAI.Returns c;
     sink_accepts := fun _ => true |}.

Definition completion_without_choices : OpenAI.ChatCompletion :=
  {| OpenAI.choices := [];
     OpenAI.model := "gpt-3.5-turbo-0125";
     OpenAI.usage :=
       Some {| OpenAI.prompt_tokens := 20;
               OpenAI.completion_tokens := 0;
               OpenAI.total_tokens := 20 |} |}.

Definition completion_without_content : OpenAI.ChatCompletion :=
  {| OpenAI.choices := [ {| OpenAI.message_content := None |} ];
     OpenAI.model := "gpt-3.5-turbo-0125";
     OpenAI.usage :=
       Some {| OpenAI.prompt_tokens := 20;
               OpenAI.completion_tokens := 0;
               OpenAI.total_tokens := 20 |} |}.

(** A world in which one telemetry credential is set to the empty
    string. *)
Definition empty_public_key_world : Externals :=
  {| environ := fun k =>
       if String.eqb k "LANGFUSE_PUBLIC_KEY" then Some EmptyString
       else sample_environ k;
     openai_client_init := sample_client_init;
     uuid4 := sample_uuid4;
     now_isoformat := fun _ => "2024-05-01T12:00:00.000000";
     completions_create := fun _ => OpenAI.Returns (sample_completion 20 15 35);
     sink_accepts := fun _ => true |}.

(** * Properties *)

(** ** The telemetry log *)

Lemma flushes_app (l1 l2 : list Langfuse.Call) :
  Langfuse.flushes (l1 ++ l2)%list
  = (Langfuse.flushes l1 + Langfuse.flushes l2)%nat.
Proof.
  unfold Langfuse.flushes. now rewrite filter_app, length_app.
Qed.

Lemma created_trace_ids_app (l1 l2 : list Langfuse.Call) :
  Langfuse.created_trace_ids (l1 ++ l2)%list
  = (Langfuse.created_trace_ids l1 ++ Langfuse.created_trace_ids l2)%list.
Proof.
  unfold Langfuse.created_trace_ids. apply flat_map_app.
Qed.

(** ** The five ways a request can go *)

Ltac run_handler :=
  unfold chat, call_openai, process_response, chat_completions_create,
    langfuse_trace, trace_generation, trace_span, span_end, trace_update,
    langfuse_flush, uuid4_str, datetime_now_isoformat, lf_record, print,
    bind, ret, raise, lift, this_call in *; cbn in *.

Ltac tidy_log :=
  unfold Langfuse.flushes, span_id;
  repeat rewrite filter_app; repeat rewrite length_app; cbn;
  repeat rewrite app_nil_r; repeat rewrite <- app_assoc; cbn;
  repeat rewrite Nat.add_0_r;
  repeat rewrite <- Nat.add_assoc; cbn.

Ltac read_records :=
  unfold ret, raise, state_after, full_records, answered_lines, started_lines,
    trace_record, generation_record, span_record, span_end_record,
    update_record, flush_record, drawn_id, derived_url;
  tidy_log.

Lemma chat_answered E request st c ch rest text u :
  this_call E st = OpenAI.Returns c ->
  OpenAI.choices c = ch :: rest ->
  OpenAI.message_content ch = Some text ->
  OpenAI.usage c = Some u ->
  chat E request st
  = (Ok {| response := text;
           trace_id := drawn_id E st;
           trace_url := derived_url E st;
           tokens_used := OpenAI.total_tokens u;
           model := OpenAI.model c |},
     state_after request st
       (full_records E request st (Py.Str text) (OpenAI.model c) u)
       (answered_lines E request st u)).
Proof.
  intros Hcall Hch Htext Hu.
  run_handler. rewrite Hcall. cbn. rewrite Hch, Hu. cbn. rewrite Htext. cbn.
  read_records. reflexivity.
Qed.

Lemma chat_api_failure E request st msg :
  this_call E st = OpenAI.Fails msg ->
  chat E request st
  = (Raise (Py.APIError msg),
     state_after request st [trace_record E request st]
       (started_lines E request st)).
Proof.
  intros Hcall. run_handler. rewrite Hcall. cbn.
  read_records. reflexivity.
Qed.

Lemma chat_no_choices E request st c :
  this_call E st = OpenAI.Returns c ->
  OpenAI.choices c = [] ->
  chat E request st
  = (Raise Py.IndexError,
     state_after request st [trace_record E request st]
       (started_lines E request st)).
Proof.
  intros Hcall Hch. run_handler. rewrite Hcall. cbn. rewrite Hch. cbn.
  read_records. reflexivity.
Qed.

Lemma chat_no_usage E request st c ch rest :
  this_call E st = OpenAI.Returns c ->
  OpenAI.choices c = ch :: rest ->
  OpenAI.usage c = None ->
  chat E request st
  = (Raise (Py.AttributeError "total_tokens"),
     state_after request st [trace_record E request st]
       (started_lines E request st)).
Proof.
  intros Hcall Hch Hu. run_handler. rewrite Hcall. cbn. rewrite Hch, Hu. cbn.
  read_records. reflexivity.
Qed.

Lemma chat_no_content E request st c ch rest u :
  this_call E st = OpenAI.Returns c ->
  OpenAI.choices c = ch :: rest ->
  OpenAI.message_content ch = None ->
  OpenAI.usage c = Some u ->
  chat E request st
  = (Raise (Py.ValidationError ["response"]),
     state_after request st
       (full_records E request st Py.None_ (OpenAI.model c) u)
       (answered_lines E request st u)).
Proof.
  intros Hcall Hch Htext Hu.
  run_handler. rewrite Hcall. cbn. rewrite Hch, Hu. cbn. rewrite Htext. cbn.
  read_records. reflexivity.
Qed.

(** A request is answered exactly when the completion came back whole,
    and then the answer and the state reached are determined. *)
Lemma chat_whole E request st text mdl u :
  whole (this_call E st) = Some (text, mdl, u) ->
  chat E request st
  = (Ok {| response := text;
           trace_id := drawn_id E st;
           trace_url := derived_url E st;
           tokens_used := OpenAI.total_tokens u;
           model := mdl |},
     state_after request st
       (full_records E request st (Py.Str text) mdl u)
       (answered_lines E request st u)).
Proof.
  unfold whole. intros H.
  destruct (this_call E st) as [c|msg] eqn:Hcall; [|discriminate].
  destruct (OpenAI.choices c) as [|ch rest] eqn:Hch; [discriminate|].
  destruct (OpenAI.usage c) as [u'|] eqn:Hu; [|discriminate].
  destruct (OpenAI.message_content ch) as [t|] eqn:Ht; [|discriminate].
  injection H as H1 H2 H3; subst.
  eapply chat_answered; eassumption.
Qed.

Lemma chat_ok_inv E request st body st' :
  chat E request st = (Ok body, st') ->
  exists text mdl u,
    whole (this_call E st) = Some (text, mdl, u) /\
    body = {| response := text;
              trace_id := drawn_id E st;
              trace_url := derived_url E st;
              tokens_used := OpenAI.total_tokens u;
              model := mdl |} /\
    st' = state_after request st
            (full_records E request st (Py.Str text) mdl u)
            (answered_lines E request st u).
Proof.
  intros H.
  destruct (this_call E st) as [c|msg] eqn:Hcall.
  - destruct (OpenAI.choices c) as [|ch rest] eqn:Hch.
    + rewrite (chat_no_choices E request st c Hcall Hch) in H. discriminate.
    + destruct (OpenAI.usage c) as [u|] eqn:Hu.
      * destruct (OpenAI.message_content ch) as [t|] eqn:Ht.
        -- rewrite (chat_answered E request st c ch rest t u Hcall Hch Ht Hu) in H.
           injection H as Hb Hs. exists t, (OpenAI.model c), u.
           unfold whole. rewrite Hch, Hu, Ht. auto.
        -- rewrite (chat_no_content E request st c ch rest u Hcall Hch Ht Hu) in H.
           discriminate.
      * rewrite (chat_no_usage E request st c ch rest Hcall Hch Hu) in H.
        discriminate.
  - rewrite (chat_api_failure E request st msg Hcall) in H. discriminate.
Qed.

Lemma post_chat_ok_inv E request st body st' :
  post_chat E request st = (Http200 body, st') ->
  chat E request st = (Ok body, st').
Proof.
  unfold post_chat. destruct (chat E request st) as [[b|e] s]; intros H.
  - now injection H as -> ->.
  - discriminate.
Qed.

Lemma post_chat_whole E request st text mdl u :
  whole (this_call E st) = Some (text, mdl, u) ->
  post_chat E request st
  = (Http200 {| response := text;
                trace_id := drawn_id E st;
                trace_url := derived_url E st;
                tokens_used := OpenAI.total_tokens u;
                model := mdl |},
     state_after request st
       (full_records E request st (Py.Str text) mdl u)
       (answered_lines E request st u)).
Proof.
  intros H. unfold post_chat. now rewrite (chat_whole E request st text mdl u H).
Qed.

Lemma new_records_after request st records lines :
  new_records st (state_after request st records lines) = records.
Proof.
  unfold new_records, state_after; cbn.
  rewrite skipn_app, Nat.sub_diag, skipn_all. reflexivity.
Qed.

(** ** Successful requests *)

(** C3: for every successful /chat request the response's [tokens_used]
    is the usage total the provider reported, its [model] is the model
    string the provider reported, and the request records under its
    trace exactly one generation followed by exactly one processing
    span, in that creation order. *)
Theorem successful_chat_reports_provider_figures :
  forall E request st body st',
    post_chat E request st = (Http200 body, st') ->
    exists c u gen_kwargs obs span_kwargs,
      this_call E st = OpenAI.Returns c /\
      OpenAI.usage c = Some u /\
      tokens_used body = OpenAI.total_tokens u /\
      model body = OpenAI.model c /\
      filter is_observation (new_records st st')
      = [ Langfuse.Generation (trace_id body) gen_kwargs;
          Langfuse.Span (trace_id body) obs span_kwargs ] /\
      observations_under (trace_id body) (new_records st st')
      = [ Langfuse.Generation (trace_id body) gen_kwargs;
          Langfuse.Span (trace_id body) obs span_kwargs ] /\
      Py.get "name" gen_kwargs = Some (Py.Str "openai_api_call") /\
      Py.get "name" span_kwargs = Some (Py.Str "response_processing").
Proof.
  intros E request st body st' H.
  apply post_chat_ok_inv, chat_ok_inv in H.
  destruct H as (text & mdl & u & Hw & -> & ->).
  unfold whole in Hw.
  destruct (this_call E st) as [c|msg] eqn:Hcall; [|discriminate].
  destruct (OpenAI.choices c) as [|ch rest]; [discriminate|].
  destruct (OpenAI.usage c) as [u'|] eqn:Hu; [|discriminate].
  destruct (OpenAI.message_content ch) as [t|]; [|discriminate].
  injection Hw as H1 H2 H3; subst.
  rewrite new_records_after.
  eexists c, u, _, (span_id st), _.
  repeat split; try reflexivity; try assumption.
  unfold observations_under, owned_by, full_records; cbn.
  rewrite !String.eqb_refl. reflexivity.
Qed.

Lemma successful_chat_reports_provider_figures_witness :
  post_chat sample_world sample_request process_start
  = (Http200
       {| response := "AI is...";
          trace_id := "6f1c2a9e-0000-4000-8000-000000000000";
          trace_url :=
            "http://localhost:3000/trace/6f1c2a9e-0000-4000-8000-000000000000";
          tokens_used := 35;
          model := "gpt-3.5-turbo-0125" |},
     snd (post_chat sample_world sample_request process_start))
  /\ exists c u gen_kwargs obs span_kwargs,
      this_call sample_world process_start = OpenAI.Returns c /\
      OpenAI.usage c = Some u /\
      35%Z = OpenAI.total_tokens u /\
      "gpt-3.5-turbo-0125" = OpenAI.model c /\
      filter is_observation
        (new_records process_start
           (snd (post_chat sample_world sample_request process_start)))
      = [ Langfuse.Generation "6f1c2a9e-0000-4000-8000-000000000000" gen_kwargs;
          Langfuse.Span "6f1c2a9e-0000-4000-8000-000000000000" obs span_kwargs ] /\
      observations_under "6f1c2a9e-0000-4000-8000-000000000000"
        (new_records process_start
           (snd (post_chat sample_world sample_request process_start)))
      = [ Langfuse.Generation "6f1c2a9e-0000-4000-8000-000000000000" gen_kwargs;
          Langfuse.Span "6f1c2a9e-0000-4000-8000-000000000000" obs span_kwargs ] /\
      Py.get "name" gen_kwargs = Some (Py.Str "openai_api_call") /\
      Py.get "name" span_kwargs = Some (Py.Str "response_processing").
Proof.
  split.
  - vm_compute. reflexivity.
  - apply (successful_chat_reports_provider_figures
             sample_world sample_request process_start
             {| response := "AI is...";
                trace_id := "6f1c2a9e-0000-4000-8000-000000000000";
                trace_url :=
                  "http://localhost:3000/trace/6f1c2a9e-0000-4000-8000-000000000000";
                tokens_used := 35;
                model := "gpt-3.5-turbo-0125" |}
             (snd (post_chat sample_world sample_request process_start))).
    vm_compute. reflexivity.
Defined.

(** C6: for every successful /chat request the response's [trace_url]
    is the value of LANGFUSE_HOST (or http://localhost:3000 when the
    variable is unset), then the literal /trace/, then the response's
    [trace_id]. *)
Theorem successful_chat_trace_url :
  forall E request st body st',
    post_chat E request st = (Http200 body, st') ->
    trace_url body
    = match environ E "LANGFUSE_HOST" with
      | Some host => host
      | None => "http://localhost:3000"
      end ++ "/trace/" ++ trace_id body.
Proof.
  intros E request st body st' H.
  apply post_chat_ok_inv, chat_ok_inv in H.
  destruct H as (text & mdl & u & _ & -> & _).
  reflexivity.
Qed.

Lemma successful_chat_trace_url_witness :
  post_chat sample_world sample_request process_start
  = (Http200
       {| response := "AI is...";
          trace_id := "6f1c2a9e-0000-4000-8000-000000000000";
          trace_url :=
            "http://localhost:3000/trace/6f1c2a9e-0000-4000-8000-000000000000";
          tokens_used := 35;
          model := "gpt-3.5-turbo-0125" |},
     snd (post_chat sample_world sample_request process_start))
  /\ "http://localhost:3000/trace/6f1c2a9e-0000-4000-8000-000000000000"
     = match environ sample_world "LANGFUSE_HOST" with
       | Some host => host
       | None => "http://localhost:3000"
       end ++ "/trace/" ++ "6f1c2a9e-0000-4000-8000-000000000000".
Proof.
  split.
  - vm_compute. reflexivity.
  - apply (successful_chat_trace_url
             sample_world sample_request process_start
             {| response := "AI is...";
                trace_id := "6f1c2a9e-0000-4000-8000-000000000000";
                trace_url :=
                  "http://localhost:3000/trace/6f1c2a9e-0000-4000-8000-000000000000";
                tokens_used := 35;
                model := "gpt-3.5-turbo-0125" |}
             (snd (post_chat sample_world sample_request process_start))).
    vm_compute. reflexivity.
Defined.

(** Whatever the provider does, a request draws one id, reads the clock
    once, sends one completion request and opens one trace. *)
Lemma post_chat_shape E request st :
  exists resp records lines,
    post_chat E request st
    = (resp, state_after request st
               (trace_record E request st :: records) lines) /\
    Langfuse.created_trace_ids records = [] /\
    (forall body, resp = Http200 body -> trace_id body = drawn_id E st).
Proof.
  unfold post_chat.
  destruct (this_call E st) as [c|msg] eqn:Hcall.
  - destruct (OpenAI.choices c) as [|ch rest] eqn:Hch.
    + rewrite (chat_no_choices E request st c Hcall Hch).
      exists Http500, [], (started_lines E request st).
      repeat split; intros; discriminate.
    + destruct (OpenAI.usage c) as [u|] eqn:Hu.
      * destruct (OpenAI.message_content ch) as [t|] eqn:Ht.
        -- rewrite (chat_answered E request st c ch rest t u Hcall Hch Ht Hu).
           eexists _, _, _. split; [reflexivity|]. split; [reflexivity|].
           intros body Hb. injection Hb as <-. reflexivity.
        -- rewrite (chat_no_content E request st c ch rest u Hcall Hch Ht Hu).
           eexists _, _, _. split; [reflexivity|]. split; [reflexivity|].
           intros; discriminate.
      * rewrite (chat_no_usage E request st c ch rest Hcall Hch Hu).
        exists Http500, [], (started_lines E request st).
        repeat split; intros; discriminate.
  - rewrite (chat_api_failure E request st msg Hcall).
    exists Http500, [], (started_lines E request st).
    repeat split; intros; discriminate.
Qed.

(** ** The completion request *)

(** C10: for every /chat request the completion request sent to the
    provider names the model gpt-3.5-turbo, temperature 0.7 and
    max_tokens 500, and carries exactly two messages: the fixed system
    prompt, then one user message whose content is the request's
    message. *)
Theorem chat_sends_fixed_completion_request :
  forall E request st,
    api_requests (snd (post_chat E request st))
    = (api_requests st ++
       [ {| OpenAI.arg_model := "gpt-3.5-turbo";
            OpenAI.arg_messages :=
              [ [("role", Py.Str "system");
                 ("content",
                  Py.Str
                    "You are a helpful assistant that explains things simply.")];
                [("role", Py.Str "user");
                 ("content", Py.Str (message request))] ];
            OpenAI.arg_temperature := (7 # 10)%Q;
            OpenAI.arg_max_tokens := 500%Z |} ])%list.
Proof.
  intros E request st.
  destruct (post_chat_shape E request st) as (resp & records & lines & -> & _).
  reflexivity.
Qed.

(** ** Post-processing *)

Lemma call_openai_ok_inv E msg trace st llm st1 :
  call_openai E msg trace st = (Ok llm, st1) ->
  exists text mdl u, llm = answer text mdl u.
Proof.
  unfold call_openai, chat_completions_create, trace_generation, lf_record,
    print, bind, ret, raise. cbn.
  destruct (completions_create E (length (api_requests st))) as [c|m]; cbn;
    [|discriminate].
  destruct (OpenAI.choices c) as [|ch rest]; cbn; [discriminate|].
  destruct (OpenAI.usage c) as [u|]; cbn; [|discriminate].
  intros H. injection H as <- _.
  now exists (Py.of_optional_str (OpenAI.message_content ch)), (OpenAI.model c), u.
Qed.

(** The processing step on any answer that has the three fields: a span
    is opened on the input, closed on the copy, and the copy returned. *)
Lemma process_response_copies llm trace st text tokens mdl :
  Py.get "text" llm = Some text ->
  Py.get "tokens" llm = Some tokens ->
  Py.get "model" llm = Some mdl ->
  process_response llm trace st
  = (Ok [("text", text); ("tokens", tokens); ("model", mdl)],
     {| uuid_draws := uuid_draws st;
        clock_reads := clock_reads st;
        api_requests := api_requests st;
        lf_log :=
          (lf_log st ++
           [ Langfuse.Span trace (length (lf_log st))
               [("name", Py.Str "response_processing");
                ("input", Py.Dict llm);
                ("metadata", Py.Dict [("step", Py.Str "validation")])];
             Langfuse.SpanEnd trace (length (lf_log st))
               [("output", Py.Dict
                   [("text", text); ("tokens", tokens); ("model", mdl)]);
                ("metadata", Py.Dict [("status", Py.Str "passed")])] ])%list;
        stdout :=
          (stdout st ++
           ["  🔍 Processing response..."; "  ✓ Processing complete"])%list;
        listening := listening st |}).
Proof.
  intros Ht Hk Hm.
  unfold process_response, trace_span, span_end, lf_record, print, bind, ret,
    lift, Py.subscript.
  cbn -[Py.get]. rewrite Ht. cbn -[Py.get]. rewrite Hk. cbn -[Py.get].
  rewrite Hm. cbn -[Py.get].
  repeat rewrite <- app_assoc. reflexivity.
Qed.

(** C7: for every /chat request that reaches post-processing (the
    completion call has returned its answer), the stage is wrapped in a
    plain span that is begun on the input and then ended with an output,
    and it transforms nothing: the text, tokens and model it returns are
    those of its input. *)
Theorem post_processing_is_a_wrapped_pass_through :
  forall E msg trace st llm st1,
    call_openai E msg trace st = (Ok llm, st1) ->
    exists processed st2 text tokens mdl,
      process_response llm trace st1 = (Ok processed, st2) /\
      new_records st1 st2
      = [ Langfuse.Span trace (length (lf_log st1))
            [("name", Py.Str "response_processing");
             ("input", Py.Dict llm);
             ("metadata", Py.Dict [("step", Py.Str "validation")])];
          Langfuse.SpanEnd trace (length (lf_log st1))
            [("output", Py.Dict processed);
             ("metadata", Py.Dict [("status", Py.Str "passed")])] ] /\
      Py.get "text" llm = Some text /\
      Py.get "text" processed = Some text /\
      Py.get "tokens" llm = Some tokens /\
      Py.get "tokens" processed = Some tokens /\
      Py.get "model" llm = Some mdl /\
      Py.get "model" processed = Some mdl /\
      processed = llm.
Proof.
  intros E msg trace st llm st1 H.
  apply call_openai_ok_inv in H. destruct H as (text & mdl & u & ->).
  eexists _, _, text, (Py.Int (OpenAI.total_tokens u)), (Py.Str mdl).
  split.
  - apply process_response_copies; reflexivity.
  - split.
    + unfold new_records; cbn.
      rewrite skipn_app, Nat.sub_diag, skipn_all. reflexivity.
    + repeat split.
Qed.

Lemma post_processing_is_a_wrapped_pass_through_witness :
  call_openai sample_world "What is AI?" "trace-1" process_start
  = (Ok [("text", Py.Str "AI is..."); ("tokens", Py.Int 35);
         ("model", Py.Str "gpt-3.5-turbo-0125")],
     snd (call_openai sample_world "What is AI?" "trace-1" process_start))
  /\ exists processed st2 text tokens mdl,
      process_response
        [("text", Py.Str "AI is..."); ("tokens", Py.Int 35);
         ("model", Py.Str "gpt-3.5-turbo-0125")] "trace-1"
        (snd (call_openai sample_world "What is AI?" "trace-1" process_start))
      = (Ok processed, st2) /\
      new_records
        (snd (call_openai sample_world "What is AI?" "trace-1" process_start))
        st2
      = [ Langfuse.Span "trace-1"
            (length
               (lf_log
                  (snd (call_openai sample_world "What is AI?" "trace-1"
                          process_start))))
            [("name", Py.Str "response_processing");
             ("input", Py.Dict
                [("text", Py.Str "AI is..."); ("tokens", Py.Int 35);
                 ("model", Py.Str "gpt-3.5-turbo-0125")]);
             ("metadata", Py.Dict [("step", Py.Str "validation")])];
          Langfuse.SpanEnd "trace-1"
            (length
               (lf_log
                  (snd (call_openai sample_world "What is AI?" "trace-1"
                          process_start))))
            [("output", Py.Dict processed);
             ("metadata", Py.Dict [("status", Py.Str "passed")])] ] /\
      Py.get "text"
        [("text", Py.Str "AI is..."); ("tokens", Py.Int 35);
         ("model", Py.Str "gpt-3.5-turbo-0125")] = Some text /\
      Py.get "text" processed = Some text /\
      Py.get "tokens"
        [("text", Py.Str "AI is..."); ("tokens", Py.Int 35);
         ("model", Py.Str "gpt-3.5-turbo-0125")] = Some tokens /\
      Py.get "tokens" processed = Some tokens /\
      Py.get "model"
        [("text", Py.Str "AI is..."); ("tokens", Py.Int 35);
         ("model", Py.Str "gpt-3.5-turbo-0125")] = Some mdl /\
      Py.get "model" processed = Some mdl /\
      processed
      = [("text", Py.Str "AI is..."); ("tokens", Py.Int 35);
         ("model", Py.Str "gpt-3.5-turbo-0125")].
Proof.
  split.
  - vm_compute. reflexivity.
  - apply (post_processing_is_a_wrapped_pass_through
             sample_world "What is AI?" "trace-1" process_start).
    vm_compute. reflexivity.
Defined.

(** ** Finishing a successful request *)

(** C5, as the code has it: for every successful /chat request the trace
    is updated once, with the post-processed output (the response text
    and the token count) and nothing else; flush is invoked after that
    update and before the answer is returned; and the answer carries the
    text and token count of that output, the trace's id and the URL
    derived from it. *)
Theorem successful_chat_updates_then_flushes :
  forall E request st body st',
    post_chat E request st = (Http200 body, st') ->
    exists earlier obs processed span_meta delivered,
      new_records st st'
      = (earlier ++
         [ Langfuse.SpanEnd (trace_id body) obs
             [("output", Py.Dict processed); span_meta];
           Langfuse.TraceUpdate (trace_id body)
             [("output", Py.Dict
                 [("response", Py.Str (response body));
                  ("tokens", Py.Int (tokens_used body))])];
           Langfuse.Flush delivered ])%list /\
      filter Langfuse.is_trace_update earlier = [] /\
      filter Langfuse.is_flush earlier = [] /\
      Py.get "text" processed = Some (Py.Str (response body)) /\
      Py.get "tokens" processed = Some (Py.Int (tokens_used body)) /\
      trace_url body
      = getenv_default E "LANGFUSE_HOST" "http://localhost:3000"
        ++ "/trace/" ++ trace_id body.
Proof.
  intros E request st body st' H.
  apply post_chat_ok_inv, chat_ok_inv in H.
  destruct H as (text & mdl & u & _ & -> & ->).
  rewrite new_records_after.
  exists [ trace_record E request st;
           generation_record E request st (Py.Str text) mdl u;
           span_record E st (answer (Py.Str text) mdl u) ].
  eexists _, _, _, _.
  repeat split.
Qed.

Lemma successful_chat_updates_then_flushes_witness :
  post_chat sample_world sample_request process_start
  = (Http200
       {| response := "AI is...";
          trace_id := "6f1c2a9e-0000-4000-8000-000000000000";
          trace_url :=
            "http://localhost:3000/trace/6f1c2a9e-0000-4000-8000-000000000000";
          tokens_used := 35;
          model := "gpt-3.5-turbo-0125" |},
     snd (post_chat sample_world sample_request process_start))
  /\ exists earlier obs processed span_meta delivered,
      new_records process_start
        (snd (post_chat sample_world sample_request process_start))
      = (earlier ++
         [ Langfuse.SpanEnd "6f1c2a9e-0000-4000-8000-000000000000" obs
             [("output", Py.Dict processed); span_meta];
           Langfuse.TraceUpdate "6f1c2a9e-0000-4000-8000-000000000000"
             [("output", Py.Dict
                 [("response", Py.Str "AI is..."); ("tokens", Py.Int 35)])];
           Langfuse.Flush delivered ])%list /\
      filter Langfuse.is_trace_update earlier = [] /\
      filter Langfuse.is_flush earlier = [] /\
      Py.get "text" processed = Some (Py.Str "AI is...") /\
      Py.get "tokens" processed = Some (Py.Int 35) /\
      "http://localhost:3000/trace/6f1c2a9e-0000-4000-8000-000000000000"
      = getenv_default sample_world "LANGFUSE_HOST" "http://localhost:3000"
        ++ "/trace/" ++ "6f1c2a9e-0000-4000-8000-000000000000".
Proof.
  split.
  - vm_compute. reflexivity.
  - apply (successful_chat_updates_then_flushes
             sample_world sample_request process_start
             {| response := "AI is...";
                trace_id := "6f1c2a9e-0000-4000-8000-000000000000";
                trace_url :=
                  "http://localhost:3000/trace/6f1c2a9e-0000-4000-8000-000000000000";
                tokens_used := 35;
                model := "gpt-3.5-turbo-0125" |}
             (snd (post_chat sample_world sample_request process_start))).
    vm_compute. reflexivity.
Defined.

(** C5, as stated, asks for a status [success] on the finalized trace.
    On the sample request, which succeeds, the two trace-level records
    are the creation and the update below, and neither carries a status:
    the update has the single keyword [output]. *)
Lemma successful_trace_records_no_status :
  fst (post_chat sample_world sample_request process_start)
  = Http200
      {| response := "AI is...";
         trace_id := "6f1c2a9e-0000-4000-8000-000000000000";
         trace_url :=
           "http://localhost:3000/trace/6f1c2a9e-0000-4000-8000-000000000000";
         tokens_used := 35;
         model := "gpt-3.5-turbo-0125" |}
  /\ filter is_trace_level
       (lf_log (snd (post_chat sample_world sample_request process_start)))
     = [ Langfuse.Trace "6f1c2a9e-0000-4000-8000-000000000000"
           [("name", Py.Str "chat_conversation");
            ("user_id", Py.Str "demo");
            ("input", Py.Dict [("message", Py.Str "What is AI?")]);
            ("metadata", Py.Dict
               [("timestamp", Py.Str "2024-05-01T12:00:00.000000");
                ("message_length", Py.Int 11)]);
            ("tags", Py.List_ [Py.Str "chatbot"; Py.Str "gpt-3.5"])];
         Langfuse.TraceUpdate "6f1c2a9e-0000-4000-8000-000000000000"
           [("output", Py.Dict
               [("response", Py.Str "AI is..."); ("tokens", Py.Int 35)])] ]
  /\ ~ (exists c,
          In c (lf_log (snd (post_chat sample_world sample_request
                               process_start))) /\
          is_trace_level c = true /\
          has_kwarg "status" c = true).
Proof.
  split; [vm_compute; reflexivity|].
  split; [vm_compute; reflexivity|].
  intros (c & Hin & Hlevel & Hstatus).
  assert (Hb : existsb (fun c => is_trace_level c && has_kwarg "status" c)
                 (lf_log (snd (post_chat sample_world sample_request
                                 process_start))) = true).
  { apply existsb_exists. exists c.
    split; [exact Hin | rewrite Hlevel, Hstatus; reflexivity]. }
  revert Hb. vm_compute. discriminate.
Qed.

(** ** A failed completion call *)




(** ** Token usage *)

(** Where a generation among the records of a request comes from: the
    completion call returned a first choice and a usage, and the record
    is the one written from them, whether or not the choice has a text. *)
Lemma generation_record_inv E request st tid kwargs :
  In (Langfuse.Generation tid kwargs)
     (new_records st (snd (post_chat E request st))) ->
  exists c ch rest u,
    this_call E st = OpenAI.Returns c /\
    OpenAI.choices c = ch :: rest /\
    OpenAI.usage c = Some u /\
    Langfuse.Generation tid kwargs
    = generation_record E request st
        (Py.of_optional_str (OpenAI.message_content ch)) (OpenAI.model c) u /\
    filter Langfuse.is_generation
      (new_records st (snd (post_chat E request st)))
    = [Langfuse.Generation tid kwargs].
Proof.
  unfold post_chat.
  destruct (this_call E st) as [c|msg] eqn:Hcall.
  - destruct (OpenAI.choices c) as [|ch rest] eqn:Hch.
    + rewrite (chat_no_choices E request st c Hcall Hch). cbn [snd].
      rewrite new_records_after. intros [H|[]]. discriminate H.
    + destruct (OpenAI.usage c) as [u|] eqn:Hu.
      * destruct (OpenAI.message_content ch) as [t|] eqn:Ht.
        -- rewrite (chat_answered E request st c ch rest t u Hcall Hch Ht Hu).
           cbn [snd]. rewrite new_records_after. intros Hin.
           exists c, ch, rest, u. rewrite Ht. cbn [Py.of_optional_str].
           unfold full_records in Hin |- *.
           destruct Hin as [H|[H|[H|[H|[H|[H|[]]]]]]];
             try discriminate H.
           rewrite <- H. repeat split; try assumption.
        -- rewrite (chat_no_content E request st c ch rest u Hcall Hch Ht Hu).
           cbn [snd]. rewrite new_records_after. intros Hin.
           exists c, ch, rest, u. rewrite Ht. cbn [Py.of_optional_str].
           unfold full_records in Hin |- *.
           destruct Hin as [H|[H|[H|[H|[H|[H|[]]]]]]];
             try discriminate H.
           rewrite <- H. repeat split; try assumption.
      * rewrite (chat_no_usage E request st c ch rest Hcall Hch Hu). cbn [snd].
        rewrite new_records_after. intros [H|[]]. discriminate H.
  - rewrite (chat_api_failure E request st msg Hcall). cbn [snd].
    rewrite new_records_after. intros [H|[]]. discriminate H.
Qed.

(** C2, as the code has it: for every generation recorded for a /chat
    request the usage is the provider's, field by field, whatever the
    three numbers are; no comparison of the total with the sum is made
    and the generation's metadata is always the temperature and the
    token limit alone; the numbers do not fail the request, which is
    answered with the provider's total whenever the first choice has a
    text. *)
Theorem usage_is_forwarded_unchecked :
  forall E request st tid kwargs,
    In (Langfuse.Generation tid kwargs)
       (new_records st (snd (post_chat E request st))) ->
    exists c ch rest u,
      this_call E st = OpenAI.Returns c /\
      OpenAI.choices c = ch :: rest /\
      OpenAI.usage c = Some u /\
      tid = uuid4 E (uuid_draws st) /\
      filter Langfuse.is_generation
        (new_records st (snd (post_chat E request st)))
      = [Langfuse.Generation tid kwargs] /\
      Py.get "usage" kwargs
      = Some (Py.Dict
                [("promptTokens", Py.Int (OpenAI.prompt_tokens u));
                 ("completionTokens", Py.Int (OpenAI.completion_tokens u));
                 ("totalTokens", Py.Int (OpenAI.total_tokens u))]) /\
      Py.get "metadata" kwargs
      = Some (Py.Dict
                [("temperature", Py.Float (7 # 10)%Q);
                 ("max_tokens", Py.Int 500)]) /\
      (forall text,
          OpenAI.message_content ch = Some text ->
          exists body,
            fst (post_chat E request st) = Http200 body /\
            response body = text /\
            tokens_used body = OpenAI.total_tokens u).
Proof.
  intros E request st tid kwargs Hin.
  destruct (generation_record_inv E request st tid kwargs Hin)
    as (c & ch & rest & u & Hcall & Hch & Hu & Hrec & Hone).
  exists c, ch, rest, u.
  split; [exact Hcall|]. split; [exact Hch|]. split; [exact Hu|].
  unfold generation_record in Hrec. injection Hrec as Htid Hkw.
  split; [exact Htid|]. split; [exact Hone|].
  rewrite Hkw.
  split; [reflexivity|]. split; [reflexivity|].
  intros text Ht. eexists. unfold post_chat.
  rewrite (chat_answered E request st c ch rest text u Hcall Hch Ht Hu).
  cbn [fst]. split; [reflexivity|]. split; reflexivity.
Qed.

Lemma usage_is_forwarded_unchecked_witness :
  In (Langfuse.Generation "6f1c2a9e-0000-4000-8000-000000000000"
        [("name", Py.Str "openai_api_call");
         ("model", Py.Str "gpt-3.5-turbo-0125");
         ("input", Py.Str "What is AI?");
         ("output", Py.Str "AI is...");
         ("usage", Py.Dict
            [("promptTokens", Py.Int 20);
             ("completionTokens", Py.Int 15);
             ("totalTokens", Py.Int 99)]);
         ("metadata", Py.Dict
            [("temperature", Py.Float (7 # 10)%Q);
             ("max_tokens", Py.Int 500)])])
     (new_records process_start
        (snd (post_chat inconsistent_usage_world sample_request
                process_start)))
  /\ exists c ch rest u,
      this_call inconsistent_usage_world process_start = OpenAI.Returns c /\
      OpenAI.choices c = ch :: rest /\
      OpenAI.usage c = Some u /\
      "6f1c2a9e-0000-4000-8000-000000000000"
      = uuid4 inconsistent_usage_world (uuid_draws process_start) /\
      filter Langfuse.is_generation
        (new_records process_start
           (snd (post_chat inconsistent_usage_world sample_request
                   process_start)))
      = [Langfuse.Generation "6f1c2a9e-0000-4000-8000-000000000000"
           [("name", Py.Str "openai_api_call");
            ("model", Py.Str "gpt-3.5-turbo-0125");
            ("input", Py.Str "What is AI?");
            ("output", Py.Str "AI is...");
            ("usage", Py.Dict
               [("promptTokens", Py.Int 20);
                ("completionTokens", Py.Int 15);
                ("totalTokens", Py.Int 99)]);
            ("metadata", Py.Dict
               [("temperature", Py.Float (7 # 10)%Q);
                ("max_tokens", Py.Int 500)])]] /\
      Py.get "usage"
        [("name", Py.Str "openai_api_call");
         ("model", Py.Str "gpt-3.5-turbo-0125");
         ("input", Py.Str "What is AI?");
         ("output", Py.Str "AI is...");
         ("usage", Py.Dict
            [("promptTokens", Py.Int 20);
             ("completionTokens", Py.Int 15);
             ("totalTokens", Py.Int 99)]);
         ("metadata", Py.Dict
            [("temperature", Py.Float (7 # 10)%Q);
             ("max_tokens", Py.Int 500)])]
      = Some (Py.Dict
                [("promptTokens", Py.Int (OpenAI.prompt_tokens u));
                 ("completionTokens", Py.Int (OpenAI.completion_tokens u));
                 ("totalTokens", Py.Int (OpenAI.total_tokens u))]) /\
      Py.get "metadata"
        [("name", Py.Str "openai_api_call");
         ("model", Py.Str "gpt-3.5-turbo-0125");
         ("input", Py.Str "What is AI?");
         ("output", Py.Str "AI is...");
         ("usage", Py.Dict
            [("promptTokens", Py.Int 20);
             ("completionTokens", Py.Int 15);
             ("totalTokens", Py.Int 99)]);
         ("metadata", Py.Dict
            [("temperature", Py.Float (7 # 10)%Q);
             ("max_tokens", Py.Int 500)])]
      = Some (Py.Dict
                [("temperature", Py.Float (7 # 10)%Q);
                 ("max_tokens", Py.Int 500)]) /\
      (forall text,
          OpenAI.message_content ch = Some text ->
          exists body,
            fst (post_chat inconsistent_usage_world sample_request
                   process_start) = Http200 body /\
            response body = text /\
            tokens_used body = OpenAI.total_tokens u).
Proof.
  assert (Hin : In (Langfuse.Generation "6f1c2a9e-0000-4000-8000-000000000000"
                      [("name", Py.Str "openai_api_call");
                       ("model", Py.Str "gpt-3.5-turbo-0125");
                       ("input", Py.Str "What is AI?");
                       ("output", Py.Str "AI is...");
                       ("usage", Py.Dict
                          [("promptTokens", Py.Int 20);
                           ("completionTokens", Py.Int 15);
                           ("totalTokens", Py.Int 99)]);
                       ("metadata", Py.Dict
                          [("temperature", Py.Float (7 # 10)%Q);
                           ("max_tokens", Py.Int 500)])])
                  (new_records process_start
                     (snd (post_chat inconsistent_usage_world sample_request
                             process_start)))).
  { vm_compute. right. left. reflexivity. }
  split; [exact Hin|].
  apply (usage_is_forwarded_unchecked
           inconsistent_usage_world sample_request process_start
           "6f1c2a9e-0000-4000-8000-000000000000" _ Hin).
Defined.

(** C2, as stated, asks for a warning in the generation's metadata when
    the total is not the sum of the parts.  With a provider reporting
    20 + 15 as 99 the sample request succeeds, and the one generation
    recorded has the metadata it has when the usage adds up: the two
    call parameters and no warning. *)
Lemma usage_mismatch_not_flagged :
  (99 <> 20 + 15)%Z
  /\ fst (post_chat inconsistent_usage_world sample_request process_start)
     = Http200
         {| response := "AI is...";
            trace_id := "6f1c2a9e-0000-4000-8000-000000000000";
            trace_url :=
              "http://localhost:3000/trace/6f1c2a9e-0000-4000-8000-000000000000";
            tokens_used := 99;
            model := "gpt-3.5-turbo-0125" |}
  /\ map (fun c => Py.get "metadata" (Langfuse.kwargs_of c))
       (filter Langfuse.is_generation
          (lf_log (snd (post_chat inconsistent_usage_world sample_request
                          process_start))))
     = [ Some (Py.Dict
                 [("temperature", Py.Float (7 # 10)%Q);
                  ("max_tokens", Py.Int 500)]) ]
  /\ map (fun c => Py.get "metadata" (Langfuse.kwargs_of c))
       (filter Langfuse.is_generation
          (lf_log (snd (post_chat inconsistent_usage_world sample_request
                          process_start))))
     = map (fun c => Py.get "metadata" (Langfuse.kwargs_of c))
         (filter Langfuse.is_generation
            (lf_log (snd (post_chat sample_world sample_request
                            process_start)))).
Proof.
  split; [discriminate|].
  split; [vm_compute; reflexivity|].
  split; vm_compute; reflexivity.
Qed.

(** ** Start of the process *)

Lemma bind_assoc {A B C} (m : M A) (f : A -> M B) (g : B -> M C) st :
  bind (bind m f) g st = bind m (fun x => bind (f x) g) st.
Proof.
  unfold bind. destruct (m st) as [[a|e] st1]; reflexivity.
Qed.

Lemma bind_print {A} line (k : unit -> M A) st :
  bind (print line) k st = k tt (printed st [line]).
Proof. reflexivity. Qed.

Lemma bind_ret {A B} (a : A) (k : A -> M B) st :
  bind (ret a) k st = k a st.
Proof. reflexivity. Qed.

Lemma bind_raise {A B} e (k : A -> M B) st :
  bind (raise e) k st = (Raise e, st).
Proof. reflexivity. Qed.

Lemma printed_printed st l1 l2 :
  printed (printed st l1) l2 = printed st (l1 ++ l2)%list.
Proof.
  unfold printed; cbn. now rewrite <- app_assoc.
Qed.

Lemma for_each_print prefix keys st :
  for_each keys (fun key => print (prefix ++ key)) st
  = (Ok tt, printed st (map (fun key => prefix ++ key) keys)).
Proof.
  revert st. induction keys as [|k keys IH]; intros st.
  - unfold printed; cbn. rewrite app_nil_r. now destruct st.
  - cbn [for_each map]. rewrite bind_print. rewrite IH.
    now rewrite printed_printed.
Qed.

Lemma bind_for_each_print {A} prefix keys (k : unit -> M A) st :
  bind (for_each keys (fun key => print (prefix ++ key))) k st
  = k tt (printed st (map (fun key => prefix ++ key) keys)).
Proof.
  unfold bind at 1. now rewrite for_each_print.
Qed.

Ltac step_script :=
  repeat (first [ rewrite bind_assoc
                | rewrite bind_print
                | rewrite (bind_for_each_print "   - ")
                | rewrite bind_raise
                | rewrite bind_ret
                | rewrite printed_printed ];
          cbv beta).

Lemma missing_spec E k :
  In k (missing E) <-> In k required_names /\ not_ (environ E k) = true.
Proof.
  unfold missing, required_keys, required_names, getenv. rewrite in_map_iff.
  split.
  - intros ([k' v] & <- & Hin). apply filter_In in Hin as [Hin Hv].
    cbn in Hin, Hv |- *.
    destruct Hin as [H|[H|[H|[]]]]; injection H as <- <-; auto.
  - intros (Hin & Hv). exists (k, environ E k). split; [reflexivity|].
    apply filter_In. split; [|exact Hv].
    cbn in Hin |- *.
    destruct Hin as [<-|[<-|[<-|[]]]]; auto.
Qed.

Lemma script_refuses E st :
  openai_client_init E (environ E "OPENAI_API_KEY") = None ->
  missing E <> [] ->
  script E st
  = (Raise (Py.SystemExit 1), printed st (refusal_lines (missing E))).
Proof.
  intros Hclient Hm.
  unfold script, module_init, main, OpenAI_init, getenv. rewrite Hclient.
  destruct (missing E) as [|k keys] eqn:Hmiss; [contradiction|].
  step_script. reflexivity.
Qed.

(** When the client constructor raises, the script stops there. *)
Lemma script_stops_at_client E st msg :
  openai_client_init E (environ E "OPENAI_API_KEY") = Some msg ->
  script E st
  = (Raise (Py.OpenAIError msg),
     printed st ["✓ Environment variables loaded from .env file"]).
Proof.
  intros Hclient.
  unfold script, module_init, OpenAI_init, getenv. rewrite Hclient.
  step_script. reflexivity.
Qed.

Lemma script_serves E st :
  openai_client_init E (environ E "OPENAI_API_KEY") = None ->
  missing E = [] ->
  exists lines,
    script E st
    = (Ok tt,
       {| uuid_draws := uuid_draws st;
          clock_reads := clock_reads st;
          api_requests := api_requests st;
          lf_log := lf_log st;
          stdout := (stdout st ++ lines)%list;
          listening := Some ("0.0.0.0", 8000%Z) |}).
Proof.
  intros Hclient Hm.
  unfold script, module_init, main, OpenAI_init, getenv. rewrite Hclient, Hm.
  step_script. unfold uvicorn_run, printed; cbn [stdout].
  eexists. reflexivity.
Qed.

(** Once the client is constructed, the [__main__] block does what it
    says: if any of OPENAI_API_KEY, LANGFUSE_PUBLIC_KEY and
    LANGFUSE_SECRET_KEY is absent the process exits with status 1, the
    name of every absent variable has been printed, and no listener has
    been bound. *)
Lemma main_block_refuses_missing_credentials :
  forall E st,
    openai_client_init E (environ E "OPENAI_API_KEY") = None ->
    (exists k, In k required_names /\ environ E k = None) ->
    exists st',
      script E st = (Raise (Py.SystemExit 1), st') /\
      listening st' = listening st /\
      (forall k, In k required_names -> environ E k = None ->
                 In ("   - " ++ k) (stdout st')).
Proof.
  intros E st Hclient (k0 & Hin0 & Habs0).
  assert (Hm : missing E <> []).
  { assert (H : In k0 (missing E)).
    { apply missing_spec. split; [exact Hin0|]. now rewrite Habs0. }
    intros Heq. rewrite Heq in H. exact H. }
  exists (printed st (refusal_lines (missing E))).
  split; [apply script_refuses; assumption|].
  split; [reflexivity|].
  intros k Hin Habs.
  unfold printed; cbn [stdout]. apply in_or_app. right.
  unfold refusal_lines. apply in_or_app. right. apply in_or_app. left.
  apply in_map. apply missing_spec. split; [exact Hin|]. now rewrite Habs.
Qed.

Example main_block_refuses_missing_secret :
  exists st',
    script missing_secret_world process_start
    = (Raise (Py.SystemExit 1), st') /\
    listening st' = None /\
    In "   - LANGFUSE_SECRET_KEY" (stdout st').
Proof.
  destruct (main_block_refuses_missing_credentials
              missing_secret_world process_start) as (st' & Hrun & Hl & Hp).
  - reflexivity.
  - exists "LANGFUSE_SECRET_KEY". split; [simpl; auto | reflexivity].
  - exists st'. split; [exact Hrun|]. split; [exact Hl|].
    apply (Hp "LANGFUSE_SECRET_KEY"); [simpl; auto | reflexivity].
Qed.

(** C4 at an environment without OPENAI_API_KEY (and without
    LANGFUSE_SECRET_KEY), with a client constructor that asks for its
    key: the constructor at the top of the module raises before the
    [__main__] block is reached.  The process still ends in an
    exception with no listener bound, but the only line printed is the
    first one: neither missing name has been printed. *)
Theorem startup_without_openai_key_prints_no_names :
  environ missing_openai_key_world "OPENAI_API_KEY" = None
  /\ environ missing_openai_key_world "LANGFUSE_SECRET_KEY" = None
  /\ script missing_openai_key_world process_start
     = (Raise (Py.OpenAIError "The api_key client option must be set"),
        printed process_start
          ["✓ Environment variables loaded from .env file"])
  /\ listening (snd (script missing_openai_key_world process_start)) = None
  /\ ~ In "   - OPENAI_API_KEY"
         (stdout (snd (script missing_openai_key_world process_start)))
  /\ ~ In "   - LANGFUSE_SECRET_KEY"
         (stdout (snd (script missing_openai_key_world process_start))).
Proof.
  assert (Hrun : script missing_openai_key_world process_start
                 = (Raise (Py.OpenAIError "The api_key client option must be set"),
                    printed process_start
                      ["✓ Environment variables loaded from .env file"])).
  { apply script_stops_at_client. reflexivity. }
  split; [reflexivity|]. split; [reflexivity|].
  split; [exact Hrun|].
  rewrite Hrun. cbn [snd printed stdout listening process_start app].
  split; [reflexivity|].
  split; intros [H|[]]; discriminate H.
Qed.

(** ** Trace identifiers over the life of the process *)

Lemma serve_cons E r rest st :
  serve E (r :: rest) st
  = (fst (post_chat E r st) :: fst (serve E rest (snd (post_chat E r st))),
     snd (serve E rest (snd (post_chat E r st)))).
Proof.
  cbn [serve]. destruct (post_chat E r st) as [a st1]. cbn [fst snd].
  destruct (serve E rest st1) as [answers st2]. reflexivity.
Qed.

(** The ids under which the requests of a run opened their traces are
    the successive draws, and a 200 answer carries the draw of its own
    request. *)
Lemma serve_trace_ids E requests :
  forall st,
    uuid_draws (snd (serve E requests st))
    = (uuid_draws st + length requests)%nat /\
    Langfuse.created_trace_ids (lf_log (snd (serve E requests st)))
    = (Langfuse.created_trace_ids (lf_log st)
       ++ map (uuid4 E) (seq (uuid_draws st) (length requests)))%list /\
    (forall body,
        In (Http200 body) (fst (serve E requests st)) ->
        In (trace_id body)
           (map (uuid4 E) (seq (uuid_draws st) (length requests)))).
Proof.
  induction requests as [|r rest IH]; intros st.
  - cbn. rewrite Nat.add_0_r, app_nil_r. repeat split. intros body [].
  - rewrite serve_cons. cbn [fst snd length seq map].
    destruct (post_chat_shape E r st)
      as (resp & records & lines & Hrun & Hids & Hbody).
    rewrite Hrun. cbn [fst snd].
    destruct (IH (state_after r st (trace_record E r st :: records) lines))
      as (IH1 & IH2 & IH3).
    cbn [state_after uuid_draws lf_log] in IH1, IH2, IH3.
    split; [rewrite IH1; apply Nat.add_succ_comm|].
    split.
    + rewrite IH2, created_trace_ids_app.
      cbn [Langfuse.created_trace_ids flat_map trace_record].
      fold (Langfuse.created_trace_ids records). rewrite Hids.
      rewrite <- app_assoc. reflexivity.
    + intros body [Hhere|Hlater].
      * left. symmetry. apply Hbody. exact Hhere.
      * right. apply IH3. exact Hlater.
Qed.

(** C8: with [uuid4] yielding pairwise distinct values over the calls of
    the process, the trace_id returned by a successful /chat call is
    distinct from the trace_id of every prior /chat call: from the id
    under which each of them opened its trace, and so from the id any of
    them returned. *)
Theorem chat_trace_id_is_fresh :
  forall E requests request body st',
    NoDup (map (uuid4 E) (seq 0 (S (length requests)))) ->
    post_chat E request (snd (serve E requests process_start))
    = (Http200 body, st') ->
    length (Langfuse.created_trace_ids
              (lf_log (snd (serve E requests process_start))))
    = length requests /\
    ~ In (trace_id body)
         (Langfuse.created_trace_ids
            (lf_log (snd (serve E requests process_start)))) /\
    (forall prior,
        In (Http200 prior) (fst (serve E requests process_start)) ->
        trace_id prior <> trace_id body).
Proof.
  intros E requests request body st' Hfresh Hrun.
  destruct (serve_trace_ids E requests process_start) as (Hdraws & Hids & Hprior).
  cbn [process_start uuid_draws lf_log Langfuse.created_trace_ids flat_map app]
    in Hdraws, Hids, Hprior.
  assert (Hid : trace_id body = uuid4 E (length requests)).
  { destruct (post_chat_shape E request (snd (serve E requests process_start)))
      as (resp & records & lines & Hshape & _ & Hbody).
    rewrite Hshape in Hrun. injection Hrun as Hresp _.
    rewrite (Hbody body Hresp). unfold drawn_id. now rewrite Hdraws. }
  rewrite seq_S, map_app in Hfresh. cbn [map Nat.add] in Hfresh.
  apply NoDup_remove_2 in Hfresh. rewrite app_nil_r in Hfresh.
  rewrite Hids, Hid.
  split; [now rewrite length_map, length_seq|].
  split; [exact Hfresh|].
  intros prior Hin Heq. apply Hfresh. rewrite <- Heq. apply Hprior. exact Hin.
Qed.

Lemma chat_trace_id_is_fresh_witness :
  NoDup (map (uuid4 sample_world)
           (seq 0 (S (length [sample_request; sample_request]))))
  /\ length (Langfuse.created_trace_ids
               (lf_log (snd (serve sample_world
                               [sample_request; sample_request]
                               process_start))))
     = length [sample_request; sample_request]
  /\ ~ In "6f1c2a9e-0000-4000-8000-000000000002"
         (Langfuse.created_trace_ids
            (lf_log (snd (serve sample_world
                            [sample_request; sample_request]
                            process_start))))
  /\ (forall prior,
         In (Http200 prior)
            (fst (serve sample_world [sample_request; sample_request]
                    process_start)) ->
         trace_id prior <> "6f1c2a9e-0000-4000-8000-000000000002").
Proof.
  assert (Hfresh : NoDup (map (uuid4 sample_world)
                            (seq 0 (S (length [sample_request;
                                               sample_request]))))).
  { vm_compute.
    repeat (apply NoDup_cons;
            [ simpl; intros H;
              repeat (destruct H as [H|H]; [discriminate H|]); exact H | ]).
    apply NoDup_nil. }
  split; [exact Hfresh|].
  apply (chat_trace_id_is_fresh
           sample_world [sample_request; sample_request] sample_request
           {| response := "AI is...";
              trace_id := "6f1c2a9e-0000-4000-8000-000000000002";
              trace_url :=
                "http://localhost:3000/trace/6f1c2a9e-0000-4000-8000-000000000002";
              tokens_used := 35;
              model := "gpt-3.5-turbo-0125" |}
           (snd (post_chat sample_world sample_request
                   (snd (serve sample_world [sample_request; sample_request]
                           process_start))))
           Hfresh).
  vm_compute. reflexivity.
Defined.

(** ** Telemetry delivery *)

Lemma same_but_delivery_refl st : same_but_delivery st st.
Proof. repeat split. Qed.

Lemma same_after r st1 st2 records1 records2 lines :
  same_but_delivery st1 st2 ->
  map erase_delivery records1 = map erase_delivery records2 ->
  same_but_delivery (state_after r st1 records1 lines)
                    (state_after r st2 records2 lines).
Proof.
  intros (H1 & H2 & H3 & H4 & H5 & H6) Hrec.
  unfold same_but_delivery, state_after; cbn.
  rewrite H1, H2, H3, H5, H6, !map_app, H4, Hrec. repeat split.
Qed.

(** One request served under two backends, from states that differ at
    most in the fate of earlier batches: same answer, and the states
    reached again differ at most in that. *)
Lemma post_chat_same_but_delivery E accepts r st1 st2 :
  same_but_delivery st1 st2 ->
  fst (post_chat E r st1) = fst (post_chat (with_sink E accepts) r st2) /\
  same_but_delivery (snd (post_chat E r st1))
                    (snd (post_chat (with_sink E accepts) r st2)).
Proof.
  intros Hsame.
  pose proof Hsame as (H1 & H2 & H3 & H4 & H5 & H6).
  assert (Hlen : length (lf_log st1) = length (lf_log st2)).
  { apply (f_equal (@length _)) in H4. now rewrite !length_map in H4. }
  assert (Hcall : this_call (with_sink E accepts) st2 = this_call E st1).
  { unfold this_call; cbn. now rewrite H3. }
  assert (Hid : drawn_id (with_sink E accepts) st2 = drawn_id E st1).
  { unfold drawn_id; cbn. now rewrite H1. }
  assert (Htr : trace_record (with_sink E accepts) r st2 = trace_record E r st1).
  { unfold trace_record. rewrite Hid. cbn. now rewrite H2. }
  assert (Hlines : started_lines (with_sink E accepts) r st2
                   = started_lines E r st1).
  { unfold started_lines. now rewrite Hid. }
  assert (Hfull : forall text mdl u,
             map erase_delivery (full_records E r st1 text mdl u)
             = map erase_delivery
                 (full_records (with_sink E accepts) r st2 text mdl u)).
  { intros text mdl u.
    unfold full_records, generation_record, span_record, span_end_record,
      update_record, flush_record, span_id.
    rewrite Htr, Hid, Hlen. reflexivity. }
  assert (Hans : forall u, answered_lines (with_sink E accepts) r st2 u
                           = answered_lines E r st1 u).
  { intros u. unfold answered_lines. now rewrite Hlines, Hid. }
  unfold post_chat.
  destruct (this_call E st1) as [c|msg] eqn:Hc1.
  - destruct (OpenAI.choices c) as [|ch rest] eqn:Hch.
    + rewrite (chat_no_choices E r st1 c Hc1 Hch).
      rewrite (chat_no_choices (with_sink E accepts) r st2 c Hcall Hch).
      cbn [fst snd]. split; [reflexivity|].
      rewrite Htr, Hlines. now apply same_after.
    + destruct (OpenAI.usage c) as [u|] eqn:Hu.
      * destruct (OpenAI.message_content ch) as [t|] eqn:Ht.
        -- rewrite (chat_answered E r st1 c ch rest t u Hc1 Hch Ht Hu).
           rewrite (chat_answered (with_sink E accepts) r st2 c ch rest t u
                      Hcall Hch Ht Hu).
           cbn [fst snd]. split.
           ++ unfold derived_url. rewrite Hid. reflexivity.
           ++ rewrite Hans. apply same_after; [exact Hsame | apply Hfull].
        -- rewrite (chat_no_content E r st1 c ch rest u Hc1 Hch Ht Hu).
           rewrite (chat_no_content (with_sink E accepts) r st2 c ch rest u
                      Hcall Hch Ht Hu).
           cbn [fst snd]. split; [reflexivity|].
           rewrite Hans. apply same_after; [exact Hsame | apply Hfull].
      * rewrite (chat_no_usage E r st1 c ch rest Hc1 Hch Hu).
        rewrite (chat_no_usage (with_sink E accepts) r st2 c ch rest
                   Hcall Hch Hu).
        cbn [fst snd]. split; [reflexivity|].
        rewrite Htr, Hlines. now apply same_after.
  - rewrite (chat_api_failure E r st1 msg Hc1).
    rewrite (chat_api_failure (with_sink E accepts) r st2 msg Hcall).
    cbn [fst snd]. split; [reflexivity|].
    rewrite Htr, Hlines. now apply same_after.
Qed.

Lemma serve_same_but_delivery E accepts requests :
  forall st1 st2,
    same_but_delivery st1 st2 ->
    fst (serve E requests st1)
    = fst (serve (with_sink E accepts) requests st2).
Proof.
  induction requests as [|r rest IH]; intros st1 st2 Hsame.
  - reflexivity.
  - rewrite !serve_cons. cbn [fst].
    destruct (post_chat_same_but_delivery E accepts r st1 st2 Hsame)
      as (Hresp & Hnext).
    rewrite Hresp. f_equal. apply IH. exact Hnext.
Qed.

(** C9: whatever the telemetry backend does with the batches flushed to
    it, accept or refuse, the answers of the /chat requests of the
    process are the same: a failed delivery reaches no caller and
    changes no response. *)
Theorem delivery_outcome_never_reaches_the_caller :
  forall E accepts requests,
    fst (serve (with_sink E accepts) requests process_start)
    = fst (serve E requests process_start)
    /\ (forall request st,
           fst (post_chat (with_sink E accepts) request st)
           = fst (post_chat E request st)).
Proof.
  intros E accepts requests. split.
  - symmetry. apply serve_same_but_delivery. apply same_but_delivery_refl.
  - intros request st. symmetry.
    apply (post_chat_same_but_delivery E accepts request st st).
    apply same_but_delivery_refl.
Qed.

(** A backend that refuses every batch: the sample request is answered
    as before, and its one flush is on record as refused. *)
Example refused_batch_still_answers :
  fst (post_chat (with_sink sample_world (fun _ => false)) sample_request
         process_start)
  = fst (post_chat sample_world sample_request process_start)
  /\ filter Langfuse.is_flush
       (lf_log (snd (post_chat (with_sink sample_world (fun _ => false))
                       sample_request process_start)))
     = [Langfuse.Flush false].
Proof.
  split; vm_compute; reflexivity.
Qed.

(** * Further properties of the handlers *)

(** ** When a request is answered, and with what *)

(** A /chat request is answered with a 200 exactly when the completion
    call returns a completion with at least one choice, a text in the
    first choice and a usage; the body is then determined: the text of
    the first choice (further choices are ignored), the id drawn for
    the request, the URL derived from it, the reported total and the
    reported model. *)
Theorem chat_answer_characterised :
  forall E request st body,
    (exists st', post_chat E request st = (Http200 body, st'))
    <-> (exists c ch rest u,
            this_call E st = OpenAI.Returns c /\
            OpenAI.choices c = ch :: rest /\
            OpenAI.message_content ch = Some (response body) /\
            OpenAI.usage c = Some u /\
            tokens_used body = OpenAI.total_tokens u /\
            model body = OpenAI.model c /\
            trace_id body = uuid4 E (uuid_draws st) /\
            trace_url body
            = getenv_default E "LANGFUSE_HOST" "http://localhost:3000"
              ++ "/trace/" ++ uuid4 E (uuid_draws st)).
Proof.
  intros E request st body. split.
  - intros (st' & H).
    apply post_chat_ok_inv, chat_ok_inv in H.
    destruct H as (text & mdl & u & Hw & -> & _).
    unfold whole in Hw.
    destruct (this_call E st) as [c|msg]; [|discriminate].
    destruct (OpenAI.choices c) as [|ch rest] eqn:Hch; [discriminate|].
    destruct (OpenAI.usage c) as [u'|] eqn:Hu; [|discriminate].
    destruct (OpenAI.message_content ch) as [t|] eqn:Ht; [|discriminate].
    injection Hw as H1 H2 H3; subst.
    exists c, ch, rest, u. cbn [response tokens_used model trace_id trace_url].
    repeat (split; [reflexivity || assumption|]). reflexivity.
  - intros (c & ch & rest & u & Hcall & Hch & Ht & Hu & H1 & H2 & H3 & H4).
    eexists. unfold post_chat.
    rewrite (chat_answered E request st c ch rest (response body) u
               Hcall Hch Ht Hu).
    f_equal. f_equal. destruct body as [r i l t m].
    cbn [response tokens_used model trace_id trace_url] in *.
    unfold drawn_id, derived_url, drawn_id. now subst.
Qed.

(** ** Completions that come back incomplete *)

(** When the completion call returns a completion without choices, or
    one without usage, the request fails (IndexError when there is no
    choice, else AttributeError) after the completion request was sent:
    the answer is a 500, the trace creation is the only telemetry record
    (no generation although the call returned, no span, no update, no
    flush). *)
Theorem incomplete_completion_fails_before_generation :
  forall E request st c,
    this_call E st = OpenAI.Returns c ->
    OpenAI.choices c = [] \/ OpenAI.usage c = None ->
    exists e st' kwargs,
      chat E request st = (Raise e, st') /\
      post_chat E request st = (Http500, st') /\
      (OpenAI.choices c = [] -> e = Py.IndexError) /\
      (OpenAI.choices c <> [] -> e = Py.AttributeError "total_tokens") /\
      new_records st st' = [Langfuse.Trace (uuid4 E (uuid_draws st)) kwargs] /\
      length (api_requests st') = S (length (api_requests st)).
Proof.
  intros E request st c Hcall Hbad.
  destruct (OpenAI.choices c) as [|ch rest] eqn:Hch.
  - eexists _, _, _. unfold post_chat.
    rewrite (chat_no_choices E request st c Hcall Hch).
    split; [reflexivity|]. split; [reflexivity|].
    split; [reflexivity|]. split; [intros H; now contradiction H|].
    rewrite new_records_after. split; [reflexivity|].
    unfold state_after; cbn [api_requests].
    rewrite length_app. cbn. apply Nat.add_1_r.
  - destruct Hbad as [Hbad|Hu]; [discriminate|].
    eexists _, _, _. unfold post_chat.
    rewrite (chat_no_usage E request st c ch rest Hcall Hch Hu).
    split; [reflexivity|]. split; [reflexivity|].
    split; [intros H; discriminate H|]. split; [reflexivity|].
    rewrite new_records_after. split; [reflexivity|].
    unfold state_after; cbn [api_requests].
    rewrite length_app. cbn. apply Nat.add_1_r.
Qed.

Lemma incomplete_completion_fails_before_generation_witness :
  this_call (world_answering completion_without_choices) process_start
  = OpenAI.Returns completion_without_choices
  /\ exists e st' kwargs,
      chat (world_answering completion_without_choices) sample_request
        process_start = (Raise e, st') /\
      post_chat (world_answering completion_without_choices) sample_request
        process_start = (Http500, st') /\
      (OpenAI.choices completion_without_choices = [] -> e = Py.IndexError) /\
      (OpenAI.choices completion_without_choices <> [] ->
       e = Py.AttributeError "total_tokens") /\
      new_records process_start st'
      = [Langfuse.Trace
           (uuid4 (world_answering completion_without_choices)
              (uuid_draws process_start)) kwargs] /\
      length (api_requests st') = S (length (api_requests process_start)).
Proof.
  split.
  - reflexivity.
  - apply (incomplete_completion_fails_before_generation
             (world_answering completion_without_choices) sample_request
             process_start completion_without_choices).
    + reflexivity.
    + left. reflexivity.
Defined.

Lemma last_app_nonempty {A} (l l' : list A) d :
  l' <> [] -> last (l ++ l')%list d = last l' d.
Proof.
  intros Hne. induction l as [|x l IH]; [reflexivity|].
  cbn [app last]. destruct (l ++ l')%list eqn:Happ; [|exact IH].
  apply app_eq_nil in Happ as [_ Hl']. contradiction.
Qed.

(** When the first choice of the completion carries no text, the whole
    telemetry of a successful request is written (a generation whose
    output is None, the processing span begun and ended, the trace
    updated with response None, one flush) and the console says the
    conversation completed; only then does building the response fail,
    and the answer is a 500. *)
Theorem missing_text_fails_after_telemetry :
  forall E request st c ch rest u,
    this_call E st = OpenAI.Returns c ->
    OpenAI.choices c = ch :: rest ->
    OpenAI.message_content ch = None ->
    OpenAI.usage c = Some u ->
    exists st' gen_kwargs,
      chat E request st = (Raise (Py.ValidationError ["response"]), st') /\
      post_chat E request st = (Http500, st') /\
      filter Langfuse.is_generation (new_records st st')
      = [Langfuse.Generation (uuid4 E (uuid_draws st)) gen_kwargs] /\
      Py.get "output" gen_kwargs = Some Py.None_ /\
      filter Langfuse.is_trace_update (new_records st st')
      = [Langfuse.TraceUpdate (uuid4 E (uuid_draws st))
           [("output", Py.Dict
               [("response", Py.None_);
                ("tokens", Py.Int (OpenAI.total_tokens u))])]] /\
      opened_spans (new_records st st') = ended_spans (new_records st st') /\
      length (opened_spans (new_records st st')) = 1%nat /\
      Langfuse.flushes (new_records st st') = 1%nat /\
      last (stdout st') EmptyString
      = "✅ Conversation completed: " ++ uuid4 E (uuid_draws st).
Proof.
  intros E request st c ch rest u Hcall Hch Ht Hu.
  eexists _, _. unfold post_chat.
  rewrite (chat_no_content E request st c ch rest u Hcall Hch Ht Hu).
  split; [reflexivity|]. split; [reflexivity|].
  rewrite new_records_after.
  split; [reflexivity|]. split; [reflexivity|]. split; [reflexivity|].
  split; [reflexivity|]. split; [reflexivity|]. split; [reflexivity|].
  unfold state_after, answered_lines; cbn [stdout].
  rewrite !last_app_nonempty by discriminate. reflexivity.
Qed.

Lemma missing_text_fails_after_telemetry_witness :
  this_call (world_answering completion_without_content) process_start
  = OpenAI.Returns completion_without_content
  /\ exists st' gen_kwargs,
      chat (world_answering completion_without_content) sample_request
        process_start
      = (Raise (Py.ValidationError ["response"]), st') /\
      post_chat (world_answering completion_without_content) sample_request
        process_start = (Http500, st') /\
      filter Langfuse.is_generation (new_records process_start st')
      = [Langfuse.Generation
           (uuid4 (world_answering completion_without_content)
              (uuid_draws process_start)) gen_kwargs] /\
      Py.get "output" gen_kwargs = Some Py.None_ /\
      filter Langfuse.is_trace_update (new_records process_start st')
      = [Langfuse.TraceUpdate
           (uuid4 (world_answering completion_without_content)
              (uuid_draws process_start))
           [("output", Py.Dict
               [("response", Py.None_); ("tokens", Py.Int 20)])]] /\
      opened_spans (new_records process_start st')
      = ended_spans (new_records process_start st') /\
      length (opened_spans (new_records process_start st')) = 1%nat /\
      Langfuse.flushes (new_records process_start st') = 1%nat /\
      last (stdout st') EmptyString
      = "✅ Conversation completed: "
        ++ uuid4 (world_answering completion_without_content)
             (uuid_draws process_start).
Proof.
  split.
  - reflexivity.
  - apply (missing_text_fails_after_telemetry
             (world_answering completion_without_content) sample_request
             process_start completion_without_content
             {| OpenAI.message_content := None |} []
             {| OpenAI.prompt_tokens := 20;
                OpenAI.completion_tokens := 0;
                OpenAI.total_tokens := 20 |});
      reflexivity.
Defined.

(** ** What every request writes, whatever its outcome *)

(** The records of a request, read off the five runs. *)
Lemma post_chat_records E request st :
  exists records,
    new_records st (snd (post_chat E request st))
    = trace_record E request st :: records /\
    (records = [] \/
     exists text mdl u,
       records = [ generation_record E request st text mdl u;
                   span_record E st (answer text mdl u);
                   span_end_record E st (answer text mdl u);
                   update_record E st text u;
                   flush_record E st ]).
Proof.
  unfold post_chat.
  destruct (this_call E st) as [c|msg] eqn:Hcall.
  - destruct (OpenAI.choices c) as [|ch rest] eqn:Hch.
    + rewrite (chat_no_choices E request st c Hcall Hch). cbn [snd].
      rewrite new_records_after. exists []. auto.
    + destruct (OpenAI.usage c) as [u|] eqn:Hu.
      * destruct (OpenAI.message_content ch) as [t|] eqn:Ht.
        -- rewrite (chat_answered E request st c ch rest t u Hcall Hch Ht Hu).
           cbn [snd]. rewrite new_records_after.
           eexists. split; [reflexivity|]. right.
           exists (Py.Str t), (OpenAI.model c), u. reflexivity.
        -- rewrite (chat_no_content E request st c ch rest u Hcall Hch Ht Hu).
           cbn [snd]. rewrite new_records_after.
           eexists. split; [reflexivity|]. right.
           exists Py.None_, (OpenAI.model c), u. reflexivity.
      * rewrite (chat_no_usage E request st c ch rest Hcall Hch Hu). cbn [snd].
        rewrite new_records_after. exists []. auto.
  - rewrite (chat_api_failure E request st msg Hcall). cbn [snd].
    rewrite new_records_after. exists []. auto.
Qed.

(** Every /chat request, answered or not, first records one trace named
    chat_conversation under the id it drew, with the request's user_id,
    its message as input, the clock reading and the message length (in
    characters) as metadata, and the two fixed tags; it opens no other
    trace. *)
Theorem every_request_opens_its_trace :
  forall E request st,
    exists kwargs later,
      new_records st (snd (post_chat E request st))
      = Langfuse.Trace (uuid4 E (uuid_draws st)) kwargs :: later /\
      Py.get "name" kwargs = Some (Py.Str "chat_conversation") /\
      Py.get "user_id" kwargs = Some (Py.Str (user_id request)) /\
      Py.get "input" kwargs
      = Some (Py.Dict [("message", Py.Str (message request))]) /\
      Py.get "metadata" kwargs
      = Some (Py.Dict
                [("timestamp", Py.Str (now_isoformat E (clock_reads st)));
                 ("message_length",
                  Py.Int (Z.of_nat (Py.len (message request))))]) /\
      Py.get "tags" kwargs
      = Some (Py.List_ [Py.Str "chatbot"; Py.Str "gpt-3.5"]) /\
      Langfuse.created_trace_ids later = [].
Proof.
  intros E request st.
  destruct (post_chat_records E request st) as (records & Hnew & Hrec).
  eexists _, records. rewrite Hnew.
  split; [reflexivity|].
  repeat (split; [reflexivity|]).
  destruct Hrec as [->|(text & mdl & u & ->)]; reflexivity.
Qed.

(** In every /chat request, answered or not, each telemetry record is
    written under the request's own trace id; every plain span begun
    with [trace.span] is ended, once and through the handle it was begun
    with, and there is at most one.  The generation is no such span: it
    is written by a single [trace.generation] call, at most once, and
    no record ends it. *)
Theorem request_records_stay_under_its_trace :
  forall E request st,
    forallb (fun c => Langfuse.is_flush c
                      || owned_by (uuid4 E (uuid_draws st)) c)
      (new_records st (snd (post_chat E request st))) = true
    /\ opened_spans (new_records st (snd (post_chat E request st)))
       = ended_spans (new_records st (snd (post_chat E request st)))
    /\ (length (opened_spans
                  (new_records st (snd (post_chat E request st)))) <= 1)%nat
    /\ (length (filter Langfuse.is_generation
                  (new_records st (snd (post_chat E request st)))) <= 1)%nat
    /\ length (filter Langfuse.is_span_end
                 (new_records st (snd (post_chat E request st))))
       = length (opened_spans
                   (new_records st (snd (post_chat E request st)))).
Proof.
  intros E request st.
  destruct (post_chat_records E request st) as (records & -> & Hrec).
  destruct Hrec as [->|(text & mdl & u & ->)].
  - split; [|split; [reflexivity | split; [cbn; lia|split; [cbn; lia|reflexivity]]]].
    unfold owned_by; cbn. unfold drawn_id. now rewrite String.eqb_refl.
  - split; [|split; [reflexivity | split; [cbn; lia|split; [cbn; lia|reflexivity]]]].
    unfold owned_by; cbn. unfold drawn_id. now rewrite !String.eqb_refl.
Qed.

(** ** The process as a whole *)

Lemma post_chat_counters E request st :
  uuid_draws (snd (post_chat E request st)) = S (uuid_draws st) /\
  clock_reads (snd (post_chat E request st)) = S (clock_reads st) /\
  api_requests (snd (post_chat E request st))
  = (api_requests st ++ [sent_request request])%list.
Proof.
  destruct (post_chat_shape E request st) as (resp & records & lines & -> & _).
  repeat split.
Qed.

(** When the requests of a process are handled one after the other,
    every /chat request gets one answer and makes the handler draw one
    id, read the clock once and call [chat.completions.create] once,
    failed calls included: the handler itself never calls again after a
    failure and never skips the call, and its calls are made in the
    order of the requests, each with the fixed arguments.  What the
    client does inside one call is not counted. *)
Theorem one_completion_request_per_chat :
  forall E requests,
    length (fst (serve E requests process_start)) = length requests /\
    uuid_draws (snd (serve E requests process_start)) = length requests /\
    clock_reads (snd (serve E requests process_start)) = length requests /\
    api_requests (snd (serve E requests process_start))
    = map (fun r =>
             {| OpenAI.arg_model := "gpt-3.5-turbo";
                OpenAI.arg_messages :=
                  [ [("role", Py.Str "system");
                     ("content",
                      Py.Str
                        "You are a helpful assistant that explains things simply.")];
                    [("role", Py.Str "user");
                     ("content", Py.Str (message r))] ];
                OpenAI.arg_temperature := (7 # 10)%Q;
                OpenAI.arg_max_tokens := 500%Z |})
        requests.
Proof.
  intros E requests.
  assert (H : forall st,
             length (fst (serve E requests st)) = length requests /\
             uuid_draws (snd (serve E requests st))
             = (uuid_draws st + length requests)%nat /\
             clock_reads (snd (serve E requests st))
             = (clock_reads st + length requests)%nat /\
             api_requests (snd (serve E requests st))
             = (api_requests st ++ map sent_request requests)%list).
  { induction requests as [|r rest IH]; intros st.
    - cbn. rewrite !Nat.add_0_r, app_nil_r. repeat split.
    - rewrite serve_cons. cbn [fst snd length map].
      destruct (post_chat_counters E r st) as (H1 & H2 & H3).
      destruct (IH (snd (post_chat E r st))) as (I0 & I1 & I2 & I3).
      rewrite I0, I1, I2, I3, H1, H2, H3, <- app_assoc.
      repeat split; lia. }
  destruct (H process_start) as (H0 & H1 & H2 & H3).
  rewrite H0, H1, H2, H3. cbn [process_start uuid_draws clock_reads
                               api_requests app Nat.add].
  repeat split.
Qed.

(** ** The processing step on its own *)

Lemma subscript_some d k v :
  Py.get k d = Some v -> Py.subscript d k = inl v.
Proof. unfold Py.subscript. now intros ->. Qed.

Lemma subscript_none d k :
  Py.get k d = None -> Py.subscript d k = inr (Py.KeyError k).
Proof. unfold Py.subscript. now intros ->. Qed.

(** The first of the three fields that a dict lacks, when it lacks one. *)
Lemma process_response_missing llm trace st :
  Py.get "text" llm = None \/ Py.get "tokens" llm = None
  \/ Py.get "model" llm = None ->
  exists k,
    process_response llm trace st
    = (Raise (Py.KeyError k),
       {| uuid_draws := uuid_draws st;
          clock_reads := clock_reads st;
          api_requests := api_requests st;
          lf_log :=
            (lf_log st ++
             [ Langfuse.Span trace (length (lf_log st))
                 [("name", Py.Str "response_processing");
                  ("input", Py.Dict llm);
                  ("metadata", Py.Dict [("step", Py.Str "validation")])] ])%list;
          stdout := (stdout st ++ ["  🔍 Processing response..."])%list;
          listening := listening st |}) /\
    Py.get k llm = None /\
    (k = "text" \/ k = "tokens" \/ k = "model").
Proof.
  intros Hmiss.
  unfold process_response, trace_span, span_end, lf_record, print, bind, ret,
    lift.
  cbn -[Py.subscript].
  destruct (Py.get "text" llm) as [t|] eqn:Ht.
  - rewrite (subscript_some _ _ _ Ht). cbn -[Py.subscript].
    destruct (Py.get "tokens" llm) as [k|] eqn:Hk.
    + rewrite (subscript_some _ _ _ Hk). cbn -[Py.subscript].
      destruct (Py.get "model" llm) as [m|] eqn:Hm.
      * destruct Hmiss as [H|[H|H]]; discriminate H.
      * rewrite (subscript_none _ _ Hm). cbn.
        exists "model". auto.
    + rewrite (subscript_none _ _ Hk). cbn. exists "tokens". auto.
  - rewrite (subscript_none _ _ Ht). cbn. exists "text". auto.
Qed.

(** [process_response] returns exactly when its input has the three
    fields text, tokens and model. *)
Theorem process_response_returns_iff_three_fields :
  forall llm trace st,
    (exists processed st', process_response llm trace st = (Ok processed, st'))
    <-> (Py.get "text" llm <> None /\ Py.get "tokens" llm <> None /\
         Py.get "model" llm <> None).
Proof.
  intros llm trace st. split.
  - intros (processed & st' & H).
    destruct (Py.get "text" llm) as [t|] eqn:Ht;
      [destruct (Py.get "tokens" llm) as [k|] eqn:Hk;
       [destruct (Py.get "model" llm) as [m|] eqn:Hm|]|].
    + repeat split; discriminate.
    + destruct (process_response_missing llm trace st) as (x & Hx & _); auto.
      rewrite Hx in H. discriminate.
    + destruct (process_response_missing llm trace st) as (x & Hx & _); auto.
      rewrite Hx in H. discriminate.
    + destruct (process_response_missing llm trace st) as (x & Hx & _); auto.
      rewrite Hx in H. discriminate.
  - intros (Ht & Hk & Hm).
    destruct (Py.get "text" llm) as [t|] eqn:Et; [|contradiction].
    destruct (Py.get "tokens" llm) as [k|] eqn:Ek; [|contradiction].
    destruct (Py.get "model" llm) as [m|] eqn:Em; [|contradiction].
    eexists _, _. apply (process_response_copies llm trace st t k m); assumption.
Qed.

(** On any input that has the three fields, [process_response] returns a
    dict with those three fields only, in the order text, tokens, model,
    each with the input's value: further fields of the input are not
    passed on, though the span records the input as it came. *)
Theorem process_response_keeps_three_fields :
  forall llm trace st processed st',
    process_response llm trace st = (Ok processed, st') ->
    Py.keys processed = ["text"; "tokens"; "model"] /\
    Py.get "text" processed = Py.get "text" llm /\
    Py.get "tokens" processed = Py.get "tokens" llm /\
    Py.get "model" processed = Py.get "model" llm /\
    exists obs span_kwargs end_kwargs,
      new_records st st'
      = [ Langfuse.Span trace obs span_kwargs;
          Langfuse.SpanEnd trace obs end_kwargs ] /\
      Py.get "input" span_kwargs = Some (Py.Dict llm) /\
      Py.get "output" end_kwargs = Some (Py.Dict processed).
Proof.
  intros llm trace st processed st' H.
  assert (Hex : exists p s, process_response llm trace st = (Ok p, s))
    by (eexists _, _; exact H).
  apply process_response_returns_iff_three_fields in Hex.
  destruct Hex as (Ht & Hk & Hm).
  destruct (Py.get "text" llm) as [t|] eqn:Et; [|contradiction].
  destruct (Py.get "tokens" llm) as [k|] eqn:Ek; [|contradiction].
  destruct (Py.get "model" llm) as [m|] eqn:Em; [|contradiction].
  rewrite (process_response_copies llm trace st t k m Et Ek Em) in H.
  injection H as <- <-.
  split; [reflexivity|]. split; [reflexivity|]. split; [reflexivity|].
  split; [reflexivity|].
  eexists _, _, _. unfold new_records; cbn [lf_log].
  rewrite skipn_app, Nat.sub_diag, skipn_all.
  split; [reflexivity|]. split; reflexivity.
Qed.

Lemma process_response_keeps_three_fields_witness :
  exists processed st',
    process_response
      [("finish_reason", Py.Str "stop"); ("text", Py.Str "AI is...");
       ("tokens", Py.Int 35); ("model", Py.Str "gpt-3.5-turbo-0125")]
      "trace-1" process_start = (Ok processed, st') /\
    Py.keys processed = ["text"; "tokens"; "model"] /\
    Py.get "text" processed = Some (Py.Str "AI is...") /\
    Py.get "finish_reason" processed = None /\
    exists obs span_kwargs end_kwargs,
      new_records process_start st'
      = [ Langfuse.Span "trace-1" obs span_kwargs;
          Langfuse.SpanEnd "trace-1" obs end_kwargs ] /\
      Py.get "input" span_kwargs
      = Some (Py.Dict
                [("finish_reason", Py.Str "stop"); ("text", Py.Str "AI is...");
                 ("tokens", Py.Int 35);
                 ("model", Py.Str "gpt-3.5-turbo-0125")]).
Proof.
  eexists _, _.
  split; [vm_compute; reflexivity|].
  destruct (process_response_keeps_three_fields
              [("finish_reason", Py.Str "stop"); ("text", Py.Str "AI is...");
               ("tokens", Py.Int 35); ("model", Py.Str "gpt-3.5-turbo-0125")]
              "trace-1" process_start _ _ eq_refl)
    as (Hkeys & Htext & _ & _ & obs & sk & ek & Hnew & Hin & _).
  split; [exact Hkeys|]. split; [exact Htext|].
  split; [reflexivity|].
  exists obs, sk, ek. split; [exact Hnew | exact Hin].
Defined.

(** Which key the lookups miss first, in the order they are made. *)
Lemma process_response_first_missing llm trace st :
  Py.get "text" llm = None \/ Py.get "tokens" llm = None
  \/ Py.get "model" llm = None ->
  exists k st',
    process_response llm trace st = (Raise (Py.KeyError k), st') /\
    new_records st st'
    = [ Langfuse.Span trace (length (lf_log st))
          [("name", Py.Str "response_processing");
           ("input", Py.Dict llm);
           ("metadata", Py.Dict [("step", Py.Str "validation")])] ] /\
    (Py.get "text" llm = None -> k = "text") /\
    (Py.get "text" llm <> None -> Py.get "tokens" llm = None ->
     k = "tokens") /\
    (Py.get "text" llm <> None -> Py.get "tokens" llm <> None ->
     k = "model").
Proof.
  intros Hmiss.
  unfold process_response, trace_span, span_end, lf_record, print, bind, ret,
    lift, new_records.
  cbn -[Py.subscript skipn].
  destruct (Py.get "text" llm) as [t|] eqn:Ht.
  - rewrite (subscript_some _ _ _ Ht). cbn -[Py.subscript skipn].
    destruct (Py.get "tokens" llm) as [k|] eqn:Hk.
    + rewrite (subscript_some _ _ _ Hk). cbn -[Py.subscript skipn].
      destruct (Py.get "model" llm) as [m|] eqn:Hm.
      * destruct Hmiss as [H|[H|H]]; discriminate H.
      * rewrite (subscript_none _ _ Hm). cbn -[skipn].
        eexists "model", _. split; [reflexivity|].
        cbn [lf_log]. rewrite skipn_app, Nat.sub_diag, skipn_all.
        split; [reflexivity|].
        split; [intros H; discriminate H|].
        split; [intros _ H; discriminate H|reflexivity].
    + rewrite (subscript_none _ _ Hk). cbn -[skipn].
      eexists "tokens", _. split; [reflexivity|].
      cbn [lf_log]. rewrite skipn_app, Nat.sub_diag, skipn_all.
      split; [reflexivity|].
      split; [intros H; discriminate H|].
      split; [reflexivity|intros _ H; now contradiction H].
  - rewrite (subscript_none _ _ Ht). cbn -[skipn].
    eexists "text", _. split; [reflexivity|].
    cbn [lf_log]. rewrite skipn_app, Nat.sub_diag, skipn_all.
    split; [reflexivity|].
    split; [reflexivity|].
    split; intros H; now contradiction H.
Qed.

(** On an input that lacks one of the three fields, [process_response]
    raises KeyError for the first one missing in the order text, tokens,
    model, after it has begun the span: the span, begun on the input as
    it came, is the only record written and is never ended. *)
Theorem process_response_leaves_span_open_on_missing_field :
  forall llm trace st,
    Py.get "text" llm = None \/ Py.get "tokens" llm = None
    \/ Py.get "model" llm = None ->
    exists k st',
      process_response llm trace st = (Raise (Py.KeyError k), st') /\
      (Py.get "text" llm = None -> k = "text") /\
      (Py.get "text" llm <> None -> Py.get "tokens" llm = None ->
       k = "tokens") /\
      (Py.get "text" llm <> None -> Py.get "tokens" llm <> None ->
       k = "model") /\
      new_records st st'
      = [ Langfuse.Span trace (length (lf_log st))
            [("name", Py.Str "response_processing");
             ("input", Py.Dict llm);
             ("metadata", Py.Dict [("step", Py.Str "validation")])] ] /\
      opened_spans (new_records st st') = [(trace, length (lf_log st))] /\
      ended_spans (new_records st st') = [].
Proof.
  intros llm trace st Hmiss.
  destruct (process_response_first_missing llm trace st Hmiss)
    as (k & st' & Hrun & Hnew & H1 & H2 & H3).
  exists k, st'. split; [exact Hrun|].
  split; [exact H1|]. split; [exact H2|]. split; [exact H3|].
  rewrite Hnew. split; [reflexivity|]. split; reflexivity.
Qed.

Lemma process_response_leaves_span_open_on_missing_field_witness :
  (Py.get "text" [("text", Py.Str "AI is...")] = None
   \/ Py.get "tokens" [("text", Py.Str "AI is...")] = None
   \/ Py.get "model" [("text", Py.Str "AI is...")] = None)
  /\ exists k st',
      process_response [("text", Py.Str "AI is...")] "trace-1" process_start
      = (Raise (Py.KeyError k), st') /\
      (Py.get "text" [("text", Py.Str "AI is...")] = None -> k = "text") /\
      (Py.get "text" [("text", Py.Str "AI is...")] <> None ->
       Py.get "tokens" [("text", Py.Str "AI is...")] = None ->
       k = "tokens") /\
      (Py.get "text" [("text", Py.Str "AI is...")] <> None ->
       Py.get "tokens" [("text", Py.Str "AI is...")] <> None ->
       k = "model") /\
      new_records process_start st'
      = [ Langfuse.Span "trace-1" (length (lf_log process_start))
            [("name", Py.Str "response_processing");
             ("input", Py.Dict [("text", Py.Str "AI is...")]);
             ("metadata", Py.Dict [("step", Py.Str "validation")])] ] /\
      opened_spans (new_records process_start st')
      = [("trace-1", length (lf_log process_start))] /\
      ended_spans (new_records process_start st') = [].
Proof.
  assert (H : Py.get "text" [("text", Py.Str "AI is...")] = None
              \/ Py.get "tokens" [("text", Py.Str "AI is...")] = None
              \/ Py.get "model" [("text", Py.Str "AI is...")] = None)
    by (right; left; reflexivity).
  split; [exact H|].
  apply (process_response_leaves_span_open_on_missing_field
           [("text", Py.Str "AI is...")] "trace-1" process_start H).
Defined.

(** ** Start of the process, continued *)

Lemma missing_unset_or_empty E : missing E = unset_or_empty E.
Proof.
  unfold missing, unset_or_empty, required_keys, required_names, getenv.
  cbn [filter map fst snd].
  destruct (not_ (environ E "OPENAI_API_KEY"));
    destruct (not_ (environ E "LANGFUSE_PUBLIC_KEY"));
    destruct (not_ (environ E "LANGFUSE_SECRET_KEY")); reflexivity.
Qed.

Lemma not_false_iff_set v :
  not_ v = false <-> exists c s, v = Some (String c s).
Proof.
  split.
  - destruct v as [[|c s]|]; try discriminate. intros _. now exists c, s.
  - intros (c & s & ->). reflexivity.
Qed.

Lemma script_serves_lines E st :
  openai_client_init E (environ E "OPENAI_API_KEY") = None ->
  missing E = [] ->
  script E st
  = (Ok tt,
     {| uuid_draws := uuid_draws st;
        clock_reads := clock_reads st;
        api_requests := api_requests st;
        lf_log := lf_log st;
        stdout := (stdout st ++ serving_lines E)%list;
        listening := Some ("0.0.0.0", 8000%Z) |}).
Proof.
  intros Hclient Hm.
  unfold script, module_init, main, OpenAI_init, getenv. rewrite Hclient, Hm.
  step_script. unfold uvicorn_run, printed; cbn [stdout uuid_draws clock_reads
                                               api_requests lf_log listening].
  reflexivity.
Qed.

(** With the client constructed and the three credentials set to
    non-empty values, the script goes through: it prints its banner,
    the trace-viewing URL built from LANGFUSE_HOST (or the default) and
    the curl example, then binds the listener on 0.0.0.0 port 8000,
    without touching the telemetry client or the provider. *)
Theorem startup_serves_when_credentials_set :
  forall E st,
    openai_client_init E (environ E "OPENAI_API_KEY") = None ->
    (forall k, In k required_names ->
               exists c s, environ E k = Some (String c s)) ->
    exists st',
      script E st = (Ok tt, st') /\
      listening st' = Some ("0.0.0.0", 8000%Z) /\
      stdout st' = (stdout st ++ serving_lines E)%list /\
      In (Py.newline ++ "📊 View traces at: "
          ++ match environ E "LANGFUSE_HOST" with
             | Some host => host
             | None => "http://localhost:3000"
             end ++ "/traces") (stdout st') /\
      lf_log st' = lf_log st /\
      api_requests st' = api_requests st.
Proof.
  intros E st Hclient Hset.
  assert (Hm : missing E = []).
  { rewrite missing_unset_or_empty. unfold unset_or_empty, required_names.
    cbn [filter].
    rewrite (proj2 (not_false_iff_set _) (Hset "OPENAI_API_KEY" ltac:(simpl; auto))).
    rewrite (proj2 (not_false_iff_set _) (Hset "LANGFUSE_PUBLIC_KEY" ltac:(simpl; auto))).
    rewrite (proj2 (not_false_iff_set _) (Hset "LANGFUSE_SECRET_KEY" ltac:(simpl; auto))).
    reflexivity. }
  eexists. split; [apply script_serves_lines; assumption|].
  cbn [listening stdout lf_log api_requests].
  split; [reflexivity|]. split; [reflexivity|].
  split; [|split; reflexivity].
  apply in_or_app. right. unfold serving_lines, getenv_default.
  do 7 right. left. reflexivity.
Qed.

Lemma startup_serves_when_credentials_set_witness :
  openai_client_init sample_world (environ sample_world "OPENAI_API_KEY") = None
  /\ exists st',
      script sample_world process_start = (Ok tt, st') /\
      listening st' = Some ("0.0.0.0", 8000%Z) /\
      stdout st' = (stdout process_start ++ serving_lines sample_world)%list /\
      In (Py.newline ++ "📊 View traces at: "
          ++ match environ sample_world "LANGFUSE_HOST" with
             | Some host => host
             | None => "http://localhost:3000"
             end ++ "/traces") (stdout st') /\
      lf_log st' = lf_log process_start /\
      api_requests st' = api_requests process_start.
Proof.
  split; [reflexivity|].
  apply (startup_serves_when_credentials_set sample_world process_start).
  - reflexivity.
  - intros k Hin. simpl in Hin.
    destruct Hin as [<-|[<-|[<-|[]]]]; eexists _, _; reflexivity.
Defined.

(** Once the client is constructed, the [__main__] block treats a
    credential set to the empty string like an unset one: if any of the
    three is unset or empty the script exits with status 1 without
    binding a listener, and what it has printed is its banner, then one
    line per unset or empty name, in the order OPENAI_API_KEY,
    LANGFUSE_PUBLIC_KEY, LANGFUSE_SECRET_KEY, then the export hints. *)
Theorem startup_lists_unset_and_empty_credentials :
  forall E st,
    openai_client_init E (environ E "OPENAI_API_KEY") = None ->
    (exists k, In k required_names /\
               (environ E k = None \/ environ E k = Some EmptyString)) ->
    exists st',
      script E st = (Raise (Py.SystemExit 1), st') /\
      listening st' = listening st /\
      stdout st' = (stdout st ++ refusal_lines (unset_or_empty E))%list /\
      (forall k, In k (unset_or_empty E)
                 <-> In k required_names /\
                     (environ E k = None \/ environ E k = Some EmptyString)).
Proof.
  intros E st Hclient (k0 & Hin0 & Hbad0).
  assert (Hspec : forall k, In k (unset_or_empty E)
                            <-> In k required_names /\
                                (environ E k = None
                                 \/ environ E k = Some EmptyString)).
  { intros k. unfold unset_or_empty. rewrite filter_In.
    split; intros (Hin & Hv); (split; [exact Hin|]).
    - destruct (environ E k) as [[|c s]|]; try discriminate; auto.
    - destruct Hv as [->| ->]; reflexivity. }
  assert (Hm : missing E <> []).
  { rewrite missing_unset_or_empty. intros Heq.
    assert (H : In k0 (unset_or_empty E)) by (apply Hspec; auto).
    rewrite Heq in H. exact H. }
  eexists. split; [apply script_refuses; assumption|].
  rewrite missing_unset_or_empty.
  split; [reflexivity|]. split; [reflexivity|]. exact Hspec.
Qed.

Lemma startup_lists_unset_and_empty_credentials_witness :
  openai_client_init empty_public_key_world
    (environ empty_public_key_world "OPENAI_API_KEY") = None
  /\ environ empty_public_key_world "LANGFUSE_PUBLIC_KEY" = Some EmptyString
  /\ unset_or_empty empty_public_key_world = ["LANGFUSE_PUBLIC_KEY"]
  /\ exists st',
      script empty_public_key_world process_start
      = (Raise (Py.SystemExit 1), st') /\
      listening st' = listening process_start /\
      stdout st'
      = (stdout process_start
         ++ refusal_lines (unset_or_empty empty_public_key_world))%list /\
      (forall k, In k (unset_or_empty empty_public_key_world)
                 <-> In k required_names /\
                     (environ empty_public_key_world k = None
                      \/ environ empty_public_key_world k = Some EmptyString)).
Proof.
  split; [reflexivity|]. split; [reflexivity|]. split; [reflexivity|].
  apply (startup_lists_unset_and_empty_credentials
           empty_public_key_world process_start).
  - reflexivity.
  - exists "LANGFUSE_PUBLIC_KEY". split; [simpl; auto|]. right. reflexivity.
Defined.

(** ** What the trace shows of an answered request *)

(** For a successful /chat request the trace shows what the caller got:
    the generation's input is the request's message, its output the text
    returned and its model the model returned, and the processing span
    has the returned text, token count and model both as its input and
    as its output. *)
Theorem trace_shows_what_the_caller_got :
  forall E request st body st',
    post_chat E request st = (Http200 body, st') ->
    exists gen_kwargs obs span_kwargs end_kwargs earlier later,
      new_records st st'
      = (earlier ++
         [ Langfuse.Generation (trace_id body) gen_kwargs;
           Langfuse.Span (trace_id body) obs span_kwargs;
           Langfuse.SpanEnd (trace_id body) obs end_kwargs ] ++ later)%list /\
      Py.get "input" gen_kwargs = Some (Py.Str (message request)) /\
      Py.get "output" gen_kwargs = Some (Py.Str (response body)) /\
      Py.get "model" gen_kwargs = Some (Py.Str (model body)) /\
      Py.get "input" span_kwargs
      = Some (Py.Dict [("text", Py.Str (response body));
                       ("tokens", Py.Int (tokens_used body));
                       ("model", Py.Str (model body))]) /\
      Py.get "output" end_kwargs = Py.get "input" span_kwargs.
Proof.
  intros E request st body st' H.
  apply post_chat_ok_inv, chat_ok_inv in H.
  destruct H as (text & mdl & u & _ & -> & ->).
  rewrite new_records_after.
  eexists _, _, _, _, [trace_record E request st], _.
  split; [reflexivity|].
  split; [reflexivity|]. split; [reflexivity|]. split; [reflexivity|].
  split; reflexivity.
Qed.

Lemma trace_shows_what_the_caller_got_witness :
  post_chat sample_world sample_request process_start
  = (Http200
       {| response := "AI is...";
          trace_id := "6f1c2a9e-0000-4000-8000-000000000000";
          trace_url :=
            "http://localhost:3000/trace/6f1c2a9e-0000-4000-8000-000000000000";
          tokens_used := 35;
          model := "gpt-3.5-turbo-0125" |},
     snd (post_chat sample_world sample_request process_start))
  /\ exists gen_kwargs obs span_kwargs end_kwargs earlier later,
      new_records process_start
        (snd (post_chat sample_world sample_request process_start))
      = (earlier ++
         [ Langfuse.Generation "6f1c2a9e-0000-4000-8000-000000000000"
             gen_kwargs;
           Langfuse.Span "6f1c2a9e-0000-4000-8000-000000000000" obs
             span_kwargs;
           Langfuse.SpanEnd "6f1c2a9e-0000-4000-8000-000000000000" obs
             end_kwargs ] ++ later)%list /\
      Py.get "input" gen_kwargs = Some (Py.Str (message sample_request)) /\
      Py.get "output" gen_kwargs = Some (Py.Str "AI is...") /\
      Py.get "model" gen_kwargs = Some (Py.Str "gpt-3.5-turbo-0125") /\
      Py.get "input" span_kwargs
      = Some (Py.Dict [("text", Py.Str "AI is...");
                       ("tokens", Py.Int 35);
                       ("model", Py.Str "gpt-3.5-turbo-0125")]) /\
      Py.get "output" end_kwargs = Py.get "input" span_kwargs.
Proof.
  split.
  - vm_compute. reflexivity.
  - apply (trace_shows_what_the_caller_got
             sample_world sample_request process_start
             {| response := "AI is...";
                trace_id := "6f1c2a9e-0000-4000-8000-000000000000";
                trace_url :=
                  "http://localhost:3000/trace/6f1c2a9e-0000-4000-8000-000000000000";
                tokens_used := 35;
                model := "gpt-3.5-turbo-0125" |}
             (snd (post_chat sample_world sample_request process_start))).
    vm_compute. reflexivity.
Defined.

(** ** The console line of the completion call *)

Lemma prefix_len_min n s : Py.len (Py.prefix n s) = Nat.min n (Py.len s).
Proof.
  revert n. induction s as [|c r IH]; intros n; cbn [Py.prefix Py.len].
  - now rewrite Nat.min_0_r.
  - destruct (Py.is_continuation c) eqn:Hc.
    + cbn [Py.len]. rewrite Hc. apply IH.
    + destruct n as [|n']; [reflexivity|].
      cbn [Py.len]. rewrite Hc, IH. reflexivity.
Qed.

Lemma prefix_split n s :
  exists rest, s = Py.prefix n s ++ rest /\ starts_a_character rest.
Proof.
  revert n. induction s as [|c r IH]; intros n; cbn [Py.prefix].
  - exists EmptyString. split; [reflexivity | exact I].
  - destruct (Py.is_continuation c) eqn:Hc.
    + destruct (IH n) as (rest & Hrest & Hb). exists rest.
      cbn [String.append]. rewrite <- Hrest. split; [reflexivity | exact Hb].
    + destruct n as [|n'].
      * exists (String c r). split; [reflexivity | exact Hc].
      * destruct (IH n') as (rest & Hrest & Hb). exists rest.
        cbn [String.append]. rewrite <- Hrest.
        split; [reflexivity | exact Hb].
Qed.

(** The slice is the only way to cut a string after its first [n]
    characters (or at its end when it has fewer), between characters. *)
Lemma prefix_unique p :
  forall n s r,
    s = p ++ r ->
    Py.len p = Nat.min n (Py.len s) ->
    starts_a_character r ->
    p = Py.prefix n s.
Proof.
  induction p as [|c p' IH]; intros n s r Hs Hlen Hb.
  - cbn [String.append] in Hs. subst s.
    destruct r as [|c r']; [reflexivity|].
    cbn [starts_a_character] in Hb. cbn [Py.len Py.prefix] in Hlen |- *.
    rewrite Hb in Hlen |- *.
    destruct n as [|n']; [reflexivity|]. cbn in Hlen. discriminate Hlen.
  - cbn [String.append] in Hs. subst s.
    cbn [Py.len Py.prefix] in Hlen |- *.
    destruct (Py.is_continuation c).
    + f_equal. apply (IH n (p' ++ r) r); [reflexivity | exact Hlen | exact Hb].
    + destruct n as [|n']; [discriminate Hlen|].
      cbn [Nat.min] in Hlen. injection Hlen as Hlen.
      f_equal. apply (IH n' (p' ++ r) r); [reflexivity | exact Hlen | exact Hb].
Qed.

Lemma call_openai_first_line E msg trace st :
  exists later,
    stdout (snd (call_openai E msg trace st))
    = List.app (stdout st)
        (("  🤖 Asking GPT-3.5: " ++ Py.prefix 50 msg ++ "...") :: later).
Proof.
  unfold call_openai, chat_completions_create, trace_generation, lf_record,
    print, bind, ret, raise. cbn -[Py.prefix].
  destruct (completions_create E (length (api_requests st))) as [c|m];
    cbn -[Py.prefix]; [|now exists []].
  destruct (OpenAI.choices c) as [|ch rest]; cbn -[Py.prefix];
    [now exists []|].
  destruct (OpenAI.usage c) as [u|]; cbn -[Py.prefix]; [|now exists []].
  rewrite <- app_assoc. eexists. reflexivity.
Qed.

(** Whatever the provider then does, [call_openai] first prints one line
    that shows [message[:50]]: the message cut between characters after
    its first 50 characters, or whole when it has no more than 50; no
    other cut of the message fits that description. *)
Theorem call_openai_logs_at_most_50_characters :
  forall E msg trace st,
    exists shown rest later,
      stdout (snd (call_openai E msg trace st))
      = List.app (stdout st)
          (("  🤖 Asking GPT-3.5: " ++ shown ++ "...") :: later) /\
      msg = shown ++ rest /\
      Py.len shown = Nat.min 50 (Py.len msg) /\
      starts_a_character rest /\
      (forall p r,
          msg = p ++ r ->
          Py.len p = Nat.min 50 (Py.len msg) ->
          starts_a_character r ->
          p = shown).
Proof.
  intros E msg trace st.
  destruct (call_openai_first_line E msg trace st) as (later & Hline).
  destruct (prefix_split 50 msg) as (rest & Hrest & Hb).
  exists (Py.prefix 50 msg), rest, later.
  split; [exact Hline|]. split; [exact Hrest|].
  split; [apply prefix_len_min|]. split; [exact Hb|].
  intros p r Hs Hlen Hr. apply (prefix_unique p 50 msg r Hs Hlen Hr).
Qed.

(** ** The request model *)

(** A request sent without a user_id is handled as user anonymous: that
    is the user_id its trace is opened with, whatever the message and
    whatever the provider then does. *)
Theorem request_without_user_id_is_traced_as_anonymous :
  forall E msg st,
    exists kwargs later,
      new_records st (snd (post_chat E (ChatRequest_init msg None) st))
      = Langfuse.Trace (uuid4 E (uuid_draws st)) kwargs :: later /\
      Py.get "user_id" kwargs = Some (Py.Str "anonymous") /\
      Py.get "input" kwargs = Some (Py.Dict [("message", Py.Str msg)]).
Proof.
  intros E msg st.
  destruct (post_chat_records E (ChatRequest_init msg None) st)
    as (records & Hnew & _).
  eexists _, records. rewrite Hnew.
  split; [reflexivity|]. split; reflexivity.
Qed.
